(** * Socket utilities of n-dhcp4: [socket_SIOCGIFNAME] and [socket_bind_if]

    A shallow embedding of [src/util/socket.c].  The two C functions talk to
    the kernel through [ioctl(2)] and [setsockopt(2)]; the kernel is an
    interface ([Kernel]) the code is parametric in, the process state carries
    the kernel state, [errno] and the list of system calls issued so far. *)

From Stdlib Require Import ZArith List Bool Lia.
From Stdlib Require Import Strings.Byte.
From stdpp Require Import base option list gmap.

Open Scope Z_scope.

(** ** C integers *)

Definition INT_MAX : Z := 2147483647.

(** Two's complement reduction of a mathematical integer to [int]. *)
Definition wrap_int (z : Z) : Z := (z + 2 ^ 31) mod 2 ^ 32 - 2 ^ 31.

(** Unary minus on [int], as in [-errno]. *)
Definition neg_int (x : Z) : Z := wrap_int (- x).

(** ** Constants of the system headers (Linux values) *)

(** [IFNAMSIZ] of <net/if.h>. *)
Definition IFNAMSIZ : nat := 16.
(** [SIOCGIFNAME] of <sys/ioctl.h>. *)
Definition SIOCGIFNAME : Z := 35088.
(** [SOL_SOCKET] and [SO_BINDTODEVICE] of <sys/socket.h>. *)
Definition SOL_SOCKET : Z := 1.
Definition SO_BINDTODEVICE : Z := 25.
(** [ENOPROTOOPT] of <errno.h>. *)
Definition ENOPROTOOPT : Z := 92.
(** [sizeof(int)]. *)
Definition sizeof_int : Z := 4.

(** ** Buffers and C strings *)

(** The zero byte. *)
Definition NUL : byte := x00.

(** [char buf[n] = {}]. *)
Definition zeroed (n : nat) : list byte := replicate n NUL.

(** [memcpy(dst, src, n)]: the first [n] bytes of [dst] are replaced by the
    first [n] bytes of [src]. *)
Definition memcpy (dst src : list byte) (n : nat) : list byte :=
  take n src ++ drop n dst.

(** [strlen(s)] over the bytes of an array: the number of bytes before the
    first zero byte.  An array without a zero byte makes [strlen] read past
    its end, which is [None] here. *)
Fixpoint strlen (s : list byte) : option nat :=
  match s with
  | [] => None
  | b :: s' => if Byte.eqb b NUL then Some 0%nat else S <$> strlen s'
  end.

(** The array holds a zero byte. *)
Definition zero_terminated (s : list byte) : bool :=
  existsb (fun b => Byte.eqb b NUL) s.

(** The bytes before the first zero byte (all of them when there is none). *)
Fixpoint cstring (s : list byte) : list byte :=
  match s with
  | [] => []
  | b :: s' => if Byte.eqb b NUL then [] else b :: cstring s'
  end.

(** ** System calls *)

(** [struct ifreq], restricted to the two members the code uses. *)
Record ifreq := { ifr_name : list byte; ifr_ifindex : Z }.

(** The value a socket option is set to: the [int] behind [&ifindex], or the
    bytes of a [char] array. *)
Inductive optval :=
| OptInt (v : Z)
| OptBuf (b : list byte).

Inductive syscall :=
| Ioctl (fd request : Z) (arg : ifreq)
| Setsockopt (fd level optname : Z) (val : optval) (len : Z).

(** A system call together with what it returned and the error code the
    kernel reported with it. *)
Record event := { ev_call : syscall; ev_ret : Z; ev_errno : Z }.

Record ioctl_reply (K : Type) :=
  { io_kern : K; io_ret : Z; io_errno : Z; io_arg : ifreq }.
Record sockopt_reply (K : Type) :=
  { so_kern : K; so_ret : Z; so_errno : Z }.
Arguments io_kern {K} _.
Arguments io_ret {K} _.
Arguments io_errno {K} _.
Arguments io_arg {K} _.
Arguments so_kern {K} _.
Arguments so_ret {K} _.
Arguments so_errno {K} _.

(** What the code needs of a kernel with states [K]. *)
Class Kernel (K : Type) := {
  k_ioctl : K -> Z -> Z -> ifreq -> ioctl_reply K;
  k_setsockopt : K -> Z -> Z -> Z -> optval -> Z -> sockopt_reply K
}.

(** ** The process: kernel state, [errno], and the calls made so far *)

Record process (K : Type) := { kern : K; errno : Z; trace : list event }.
Arguments kern {K} _.
Arguments errno {K} _.
Arguments trace {K} _.

(** How a C function ends: it returns, [assert] aborts the process, or it
    runs into undefined behaviour. *)
Inductive outcome (A : Type) :=
| Returned (a : A)
| Aborted
| Undefined.
Arguments Returned {A} a.
Arguments Aborted {A}.
Arguments Undefined {A}.

Definition M (K A : Type) : Type := process K -> outcome A * process K.

Definition ret {K A} (a : A) : M K A := fun p => (Returned a, p).

Definition bind {K A B} (m : M K A) (f : A -> M K B) : M K B :=
  fun p =>
    match m p with
    | (Returned a, p') => f a p'
    | (Aborted, p') => (Aborted, p')
    | (Undefined, p') => (Undefined, p')
    end.

Declare Scope c_scope.
Delimit Scope c_scope with C.
Notation "'let*' x ':=' m 'in' k" := (bind m (fun x => k))
  (at level 10, x pattern, m at level 100, k at level 200) : c_scope.

(** [assert(b)]. *)
Definition assert {K} (b : bool) : M K unit :=
  fun p => if b then (Returned tt, p) else (Aborted, p).

(** Reading [errno]. *)
Definition get_errno {K} : M K Z := fun p => (Returned (errno p), p).

(** A library result that is undefined when absent.  The run ends there:
    what the compiled program does from that point on is not described, so
    a statement that is to hold of the program needs a hypothesis that
    keeps its runs away from [Undefined]. *)
Definition defined {K A} (o : option A) : M K A :=
  fun p => match o with Some a => (Returned a, p) | None => (Undefined, p) end.

Section Syscalls.
Context {K : Type} `{Kernel K}.

(** [ioctl(fd, request, &req)]: the kernel's answer, with [errno] set when
    the call fails. *)
Definition ioctl (fd request : Z) (req : ifreq) : M K (Z * ifreq) :=
  fun p =>
    let rep := k_ioctl (kern p) fd request req in
    (Returned (io_ret rep, io_arg rep),
     {| kern := io_kern rep;
        errno := if io_ret rep <? 0 then io_errno rep else errno p;
        trace := trace p ++ [ {| ev_call := Ioctl fd request req;
                                 ev_ret := io_ret rep;
                                 ev_errno := io_errno rep |} ] |}).

(** [setsockopt(fd, level, optname, optval, optlen)]. *)
Definition setsockopt (fd level optname : Z) (val : optval) (len : Z)
  : M K Z :=
  fun p =>
    let rep := k_setsockopt (kern p) fd level optname val len in
    (Returned (so_ret rep),
     {| kern := so_kern rep;
        errno := if so_ret rep <? 0 then so_errno rep else errno p;
        trace := trace p ++ [ {| ev_call := Setsockopt fd level optname val len;
                                 ev_ret := so_ret rep;
                                 ev_errno := so_errno rep |} ] |}).

Local Open Scope c_scope.

(** ** [socket_SIOCGIFNAME]

    [ifname] is the array behind [ifnamep]; the function returns [r] and
    the array as it leaves it. *)
Definition socket_SIOCGIFNAME (socket ifindex : Z) (ifname : list byte)
  : M K (Z * list byte) :=
  let req := {| ifr_name := zeroed IFNAMSIZ; ifr_ifindex := ifindex |} in
  let* (r, req) := ioctl socket SIOCGIFNAME req in
  if r <? 0 then
    let* e := get_errno in
    ret (neg_int e, ifname)
  else
    ret (0, memcpy ifname (ifr_name req) IFNAMSIZ).

(** ** [socket_bind_if]

    [so_bindtoif] stands for the conditional compilation around the
    [SO_BINDTOIF] block: [None] is the block compiled out, [Some opt] is
    the block compiled in with [SO_BINDTOIF] defined as [opt].  A [Some r]
    bound to [early] is a [return r] inside a block. *)
Definition socket_bind_if_with (so_bindtoif : option Z) (socket ifindex : Z)
  : M K Z :=
  let ifname := zeroed IFNAMSIZ in
  let* _ := assert (0 <=? ifindex) in
  let* early :=
    match so_bindtoif with
    | None => ret None
    | Some opt =>
        let* r := setsockopt socket SOL_SOCKET opt (OptInt ifindex) sizeof_int in
        if 0 <=? r then ret (Some 0)
        else
          let* e := get_errno in
          if negb (e =? ENOPROTOOPT) then ret (Some (neg_int e))
          else ret None
    end in
  match early with
  | Some r => ret r
  | None =>
      let* (early, ifname) :=
        if 0 <? ifindex then
          let* (r, ifname) := socket_SIOCGIFNAME socket ifindex ifname in
          ret (if r =? 0 then None else Some r, ifname)
        else ret (None, ifname) in
      match early with
      | Some r => ret r
      | None =>
          let* len := defined (strlen ifname) in
          let* r := setsockopt socket SOL_SOCKET SO_BINDTODEVICE
                      (OptBuf ifname) (Z.of_nat len) in
          if r <? 0 then
            let* e := get_errno in
            ret (neg_int e)
          else ret 0
      end
  end.

(** The function as the source builds it: the [SO_BINDTOIF] block sits
    under [#if 0]. *)
Definition socket_bind_if (socket ifindex : Z) : M K Z :=
  socket_bind_if_with None socket ifindex.

End Syscalls.

(** ** A reference kernel

    The kernel is not part of the source; this is the kernel side that the
    comments of [socket_bind_if] and [socket_SIOCGIFNAME] rely on: a table
    of network interfaces (index and name), and for every open socket the
    index of the interface it is bound to, 0 when it is bound to none.
    [SIOCGIFNAME] looks an index up, [SO_BINDTODEVICE] looks a name up and
    binds the socket to it, the empty name removes the binding.  [bindtoif]
    is the option number under which this kernel offers binding by index,
    if it does.  The model knows sockets only: a descriptor outside [socks]
    stands for a closed descriptor, not for an open file of another kind.
    The statements on the code alone quantify over every
    [Kernel]; this one serves the statements on the kernel's binding state
    and the concrete runs. *)
Module RefKernel.

Definition EBADF : Z := 9.
Definition EFAULT : Z := 14.
Definition ENODEV : Z := 19.
Definition EINVAL : Z := 22.
Definition ENOTTY : Z := 25.

Record state := {
  ifaces : list (Z * list byte);
  socks : gmap Z Z;
  bindtoif : option Z
}.

Fixpoint bytes_eqb (a b : list byte) : bool :=
  match a, b with
  | [], [] => true
  | x :: a', y :: b' => Byte.eqb x y && bytes_eqb a' b'
  | _, _ => false
  end.

Fixpoint name_of (i : Z) (t : list (Z * list byte)) : option (list byte) :=
  match t with
  | [] => None
  | (j, n) :: t' => if j =? i then Some n else name_of i t'
  end.

Fixpoint index_of (n : list byte) (t : list (Z * list byte)) : option Z :=
  match t with
  | [] => None
  | (j, m) :: t' => if bytes_eqb m n then Some j else index_of n t'
  end.

(** The name as it lands in the [IFNAMSIZ] bytes of [ifr_name]. *)
Definition in_ifr_name (n : list byte) : list byte :=
  take IFNAMSIZ (n ++ zeroed IFNAMSIZ).

(** An interface name as the kernel hands them out: not empty, shorter
    than [IFNAMSIZ], no zero byte inside. *)
Definition valid_name (n : list byte) : bool :=
  negb (bytes_eqb n []) && (length n <? IFNAMSIZ)%nat
  && negb (zero_terminated n).

Definition set_bound (k : state) (fd idx : Z) : state :=
  {| ifaces := ifaces k; socks := <[fd := idx]> (socks k);
     bindtoif := bindtoif k |}.

(** The kernel after [socket(2)] returned [fd]: a new socket is bound to
    no interface. *)
Definition socket_new (k : state) (fd : Z) : state := set_bound k fd 0.

(** The interface [fd] is bound to, for an open socket. *)
Definition bound_dev (k : state) (fd : Z) : option Z := socks k !! fd.

Definition do_ioctl (k : state) (fd request : Z) (req : ifreq)
  : ioctl_reply state :=
  let fail e :=
    {| io_kern := k; io_ret := -1; io_errno := e; io_arg := req |} in
  match socks k !! fd with
  | None => fail EBADF
  | Some _ =>
      if request =? SIOCGIFNAME then
        match name_of (ifr_ifindex req) (ifaces k) with
        | None => fail ENODEV
        | Some n =>
            {| io_kern := k; io_ret := 0; io_errno := 0;
               io_arg := {| ifr_name := in_ifr_name n;
                            ifr_ifindex := ifr_ifindex req |} |}
        end
      else fail ENOTTY
  end.

Definition do_setsockopt (k : state) (fd level optname : Z) (val : optval)
  (len : Z) : sockopt_reply state :=
  let fail e := {| so_kern := k; so_ret := -1; so_errno := e |} in
  let done k' := {| so_kern := k'; so_ret := 0; so_errno := 0 |} in
  match socks k !! fd with
  | None => fail EBADF
  | Some _ =>
      if negb (level =? SOL_SOCKET) then fail ENOPROTOOPT
      else if optname =? SO_BINDTODEVICE then
        match val with
        | OptBuf buf =>
            if len <? 0 then fail EINVAL
            else
              let n := Nat.min (Z.to_nat len) (IFNAMSIZ - 1) in
              match cstring (take n buf) with
              | [] => done (set_bound k fd 0)
              | dev =>
                  match index_of dev (ifaces k) with
                  | None => fail ENODEV
                  | Some idx => done (set_bound k fd idx)
                  end
              end
        | OptInt _ => fail EFAULT
        end
      else
        match bindtoif k, val with
        | Some opt, OptInt idx =>
            if negb (optname =? opt) then fail ENOPROTOOPT
            else if len <? sizeof_int then fail EINVAL
            else if idx =? 0 then done (set_bound k fd 0)
            else
              match name_of idx (ifaces k) with
              | None => fail ENODEV
              | Some _ => done (set_bound k fd idx)
              end
        | Some opt, OptBuf _ =>
            if negb (optname =? opt) then fail ENOPROTOOPT else fail EFAULT
        | None, _ => fail ENOPROTOOPT
        end
  end.

(** The interface [SO_BINDTODEVICE] binds to when handed the array [buf]
    with the length of its string: 0 for the empty name, none when the
    array has no zero byte or names no interface. *)
Definition name_target (k : state) (buf : list byte) : option Z :=
  match strlen buf with
  | None => None
  | Some len =>
      match cstring (take (Nat.min len (IFNAMSIZ - 1)) buf) with
      | [] => Some 0
      | dev => index_of dev (ifaces k)
      end
  end.

(** The interface the name-based strategy binds the socket [fd] to when
    asked for the index [i], none when one of its calls fails. *)
Definition bind_target (k : state) (fd i : Z) : option Z :=
  match socks k !! fd with
  | None => None
  | Some _ =>
      if i =? 0 then name_target k (zeroed IFNAMSIZ)
      else
        match name_of i (ifaces k) with
        | None => None
        | Some n => name_target k (in_ifr_name n)
        end
  end.

#[export] Instance kernel : Kernel state :=
  {| k_ioctl := do_ioctl; k_setsockopt := do_setsockopt |}.

(** A process that has made no system call yet. *)
Definition boot (k : state) : process state :=
  {| kern := k; errno := 0; trace := [] |}.

(** "lo" and "eth0". *)
Definition name_lo : list byte := [x6c; x6f].
Definition name_eth0 : list byte := [x65; x74; x68; x30].

(** One namespace with the loopback interface at index 1 and [eth0] at
    index 2, and socket 3 open and unbound. *)
Definition k0 : state :=
  {| ifaces := [(1, name_lo); (2, name_eth0)];
     socks := {[ 3 := 0 ]};
     bindtoif := None |}.

(** A kernel state outside the kernel's naming rules: the name of
    interface 1 fills all [IFNAMSIZ] bytes and leaves no room for a zero
    byte. *)
Definition name_long : list byte := replicate IFNAMSIZ x61.
Definition k_long : state :=
  {| ifaces := [(1, name_long)]; socks := {[ 3 := 0 ]}; bindtoif := None |}.

(** [k0] on a kernel that offers binding by index as option 62. *)
Definition k_new : state :=
  {| ifaces := ifaces k0; socks := socks k0; bindtoif := Some 62 |}.

End RefKernel.

(** ** What a run adds to the trace *)

(** The system calls [m] makes when started in [p]. *)
Definition calls_of {K A} (m : M K A) (p : process K) : list event :=
  drop (length (trace p)) (trace (snd (m p))).

Definition is_ioctl (e : event) : bool :=
  match ev_call e with Ioctl _ _ _ => true | Setsockopt _ _ _ _ _ => false end.

Definition is_setsockopt (e : event) : bool :=
  match ev_call e with Ioctl _ _ _ => false | Setsockopt _ _ _ _ _ => true end.

(** The call of the index-based strategy: a socket option set to the [int]
    [ifindex], whatever the number of the option. *)
Definition is_index_attempt (socket ifindex : Z) (e : event) : bool :=
  match ev_call e with
  | Setsockopt fd level _ (OptInt v) len =>
      (fd =? socket) && (level =? SOL_SOCKET) && (v =? ifindex)
      && (len =? sizeof_int)
  | _ => false
  end.

(** The call failed. *)
Definition failed (e : event) : bool := ev_ret e <? 0.

(** A failed call reports an error code as <errno.h> has them: a positive
    [int]. *)
Definition posix_errno (e : event) : bool :=
  negb (failed e) || ((0 <? ev_errno e) && (ev_errno e <=? INT_MAX)).

(** A name-based call passes the length of its string: the number of bytes
    before the first zero byte of the array, which is less than
    [IFNAMSIZ]. *)
Definition exact_length (e : event) : bool :=
  match ev_call e with
  | Setsockopt _ _ _ (OptBuf buf) len =>
      match strlen buf with
      | Some n => (len =? Z.of_nat n) && (n <? IFNAMSIZ)%nat
      | None => false
      end
  | _ => true
  end.

(** The calls of the two functions and the kernel's answers to them. *)
Section Calls.
Context {K : Type} `{Kernel K}.
Implicit Types (p : process K) (socket ifindex : Z) (ifname : list byte).

(** The request [socket_SIOCGIFNAME] hands to the kernel. *)
Definition resolve_req ifindex : ifreq :=
  {| ifr_name := zeroed IFNAMSIZ; ifr_ifindex := ifindex |}.

(** The kernel's answer to it, asked in [p]. *)
Definition resolve_reply p socket ifindex : ioctl_reply K :=
  k_ioctl (kern p) socket SIOCGIFNAME (resolve_req ifindex).

(** The [ifr_name] of that answer. *)
Definition reply_name p socket ifindex : list byte :=
  ifr_name (io_arg (resolve_reply p socket ifindex)).

(** The process after that call. *)
Definition resolved p socket ifindex : process K :=
  snd (ioctl socket SIOCGIFNAME (resolve_req ifindex) p).

(** The name-based call with the array [ifname], and the kernel's answer
    to it. *)
Definition bind_call socket ifname (len : nat) : syscall :=
  Setsockopt socket SOL_SOCKET SO_BINDTODEVICE (OptBuf ifname) (Z.of_nat len).

Definition bind_reply p socket ifname (len : nat) : sockopt_reply K :=
  k_setsockopt (kern p) socket SOL_SOCKET SO_BINDTODEVICE (OptBuf ifname)
    (Z.of_nat len).

Definition bound p socket ifname (len : nat) : process K :=
  snd (setsockopt socket SOL_SOCKET SO_BINDTODEVICE (OptBuf ifname)
         (Z.of_nat len) p).

(** The end of [socket_bind_if] from the call of [strlen] on, with the array
    [ifname]. *)
Definition bind_result p socket ifname : outcome Z * process K :=
  match strlen ifname with
  | None => (Undefined, p)
  | Some n =>
      (Returned (if so_ret (bind_reply p socket ifname n) <? 0
                 then neg_int (so_errno (bind_reply p socket ifname n))
                 else 0),
       bound p socket ifname n)
  end.

(** The index-based call with the option number [opt], the kernel's answer
    to it, and the process after it. *)
Definition index_call socket ifindex (opt : Z) : syscall :=
  Setsockopt socket SOL_SOCKET opt (OptInt ifindex) sizeof_int.

Definition index_reply p socket ifindex (opt : Z) : sockopt_reply K :=
  k_setsockopt (kern p) socket SOL_SOCKET opt (OptInt ifindex) sizeof_int.

Definition index_tried p socket ifindex (opt : Z) : process K :=
  snd (setsockopt socket SOL_SOCKET opt (OptInt ifindex) sizeof_int p).

(** The index-based call was answered with "unknown option". *)
Definition unsupported p socket ifindex (opt : Z) : bool :=
  (so_ret (index_reply p socket ifindex opt) <? 0)
  && (so_errno (index_reply p socket ifindex opt) =? ENOPROTOOPT).

(** The three calls as they enter the trace. *)
Definition resolve_event p socket ifindex : event :=
  {| ev_call := Ioctl socket SIOCGIFNAME (resolve_req ifindex);
     ev_ret := io_ret (resolve_reply p socket ifindex);
     ev_errno := io_errno (resolve_reply p socket ifindex) |}.

Definition bind_event p socket ifname (len : nat) : event :=
  {| ev_call := bind_call socket ifname len;
     ev_ret := so_ret (bind_reply p socket ifname len);
     ev_errno := so_errno (bind_reply p socket ifname len) |}.

Definition index_event p socket ifindex (opt : Z) : event :=
  {| ev_call := index_call socket ifindex opt;
     ev_ret := so_ret (index_reply p socket ifindex opt);
     ev_errno := so_errno (index_reply p socket ifindex opt) |}.

(** The calls of [bind_result]. *)
Definition bind_calls p socket ifname : list event :=
  match strlen ifname with
  | None => []
  | Some n => [bind_event p socket ifname n]
  end.

(** The calls of the name-based strategy started in [p]. *)
Definition name_based_calls p socket ifindex : list event :=
  if 0 <? ifindex then
    resolve_event p socket ifindex ::
    (if io_ret (resolve_reply p socket ifindex) <? 0 then
       if neg_int (io_errno (resolve_reply p socket ifindex)) =? 0
       then bind_calls (resolved p socket ifindex) socket (zeroed IFNAMSIZ)
       else []
     else
       bind_calls (resolved p socket ifindex) socket
         (take IFNAMSIZ (reply_name p socket ifindex)))
  else if ifindex =? 0 then bind_calls p socket (zeroed IFNAMSIZ)
  else [].

(** The strategy the name-based calls belong to was reached: always when
    the [SO_BINDTOIF] block is compiled out, after "unknown option" when it
    is compiled in. *)
Definition fell_through (cfg : option Z) p socket ifindex : bool :=
  match cfg with
  | None => true
  | Some opt => unsupported p socket ifindex opt
  end.

(** The kernel's answer to the resolver's request, when the request
    succeeds, has a zero byte in its [IFNAMSIZ] bytes. *)
Definition reply_terminated p socket ifindex : bool :=
  (io_ret (resolve_reply p socket ifindex) <? 0)
  || zero_terminated (take IFNAMSIZ (reply_name p socket ifindex)).

End Calls.

(** The first call of a run is the index-based one. *)
Definition attempts_index_first (socket ifindex : Z) (calls : list event)
  : bool :=
  match calls with
  | e :: _ => is_index_attempt socket ifindex e
  | [] => false
  end.

(** The first failed call of a run. *)
Definition first_failure (calls : list event) : option event :=
  List.find failed calls.

(** The function ran into undefined behaviour. *)
Definition is_undefined {A} (o : outcome A) : bool :=
  match o with Undefined => true | _ => false end.

(** The call is made on [socket]: a [SIOCGIFNAME] request for [ifindex],
    or a socket option at the level [SOL_SOCKET]. *)
Definition well_addressed (socket ifindex : Z) (e : event) : bool :=
  match ev_call e with
  | Ioctl fd request arg =>
      (fd =? socket) && (request =? SIOCGIFNAME)
      && (ifr_ifindex arg =? ifindex)
  | Setsockopt fd level _ _ _ => (fd =? socket) && (level =? SOL_SOCKET)
  end.

Section Contract.
Context {K : Type} `{Kernel K}.
Implicit Types (p : process K) (socket ifindex : Z).

(** The state in which the name-based strategy starts: the state at entry
    when the [SO_BINDTOIF] block is compiled out, the state after the
    index-based call when it is compiled in. *)
Definition fallback_entry (cfg : option Z) p socket ifindex : process K :=
  match cfg with
  | None => p
  | Some opt => index_tried p socket ifindex opt
  end.

(** Where the run asks the resolver (the index is positive and the
    name-based strategy is reached), a successful answer has a zero byte in
    its [IFNAMSIZ] bytes. *)
Definition resolver_reply_terminated (cfg : option Z) p socket ifindex
  : bool :=
  (ifindex <=? 0)
  || negb (fell_through cfg p socket ifindex)
  || reply_terminated (fallback_entry cfg p socket ifindex) socket ifindex.

End Contract.

(** No two interfaces of the table share a name. *)
Definition unique_names (k : RefKernel.state) : Prop :=
  NoDup (map snd (RefKernel.ifaces k)).

Import RefKernel.

(** Goals on closed terms. *)
Ltac by_computation := vm_compute; first [reflexivity | discriminate | lia].

Arguments neg_int : simpl never.
Arguments zeroed : simpl never.
Arguments memcpy : simpl never.

(** ** Concrete runs on the reference kernel *)

Example bind_lo : fst (socket_bind_if 3 1 (boot k0)) = Returned 0.
Proof. reflexivity. Qed.

Example bind_lo_bound :
  bound_dev (kern (snd (socket_bind_if 3 1 (boot k0)))) 3 = Some 1.
Proof. reflexivity. Qed.

Example bind_closed_socket :
  fst (socket_bind_if 4 1 (boot k0)) = Returned (- EBADF).
Proof. reflexivity. Qed.

Example bind_missing_interface :
  fst (socket_bind_if 3 7 (boot k0)) = Returned (- ENODEV).
Proof. reflexivity. Qed.

Example bind_long_name_undefined :
  fst (socket_bind_if 3 1 (boot k_long)) = Undefined.
Proof. reflexivity. Qed.

(** With the [SO_BINDTOIF] block compiled in and a kernel that does not
    know the option, the index-based call fails with [ENOPROTOOPT] and the
    name-based calls follow. *)
Example bind_falls_back_on_old_kernel :
  map (fun e => (ev_call e, ev_ret e, ev_errno e))
    (calls_of (socket_bind_if_with (Some 62) 3 1) (boot k0)) =
  [(index_call 3 1 62, -1, ENOPROTOOPT);
   (Ioctl 3 SIOCGIFNAME (resolve_req 1), 0, 0);
   (bind_call 3 (in_ifr_name name_lo) 2, 0, 0)].
Proof. reflexivity. Qed.

Example neg_int_ENODEV : neg_int ENODEV = -19.
Proof. reflexivity. Qed.

(** ** Facts on C integers and strings *)

Lemma neg_int_errno (e : Z) : 0 < e <= INT_MAX -> neg_int e = - e /\ - e < 0.
Proof.
  unfold INT_MAX, neg_int, wrap_int. intros He. split; [|lia].
  replace (- e + 2 ^ 31) with (2 ^ 31 - e) by lia.
  rewrite Z.mod_small; lia.
Qed.

Lemma memcpy_whole (dst src : list byte) (n : nat) :
  length dst = n -> memcpy dst src n = take n src.
Proof.
  intros Hd. unfold memcpy. rewrite drop_ge by lia. apply app_nil_r.
Qed.

Lemma memcpy_zeroed (src : list byte) :
  memcpy (zeroed IFNAMSIZ) src IFNAMSIZ = take IFNAMSIZ src.
Proof. apply memcpy_whole. unfold zeroed. apply length_replicate. Qed.

Lemma strlen_zeroed : strlen (zeroed IFNAMSIZ) = Some 0%nat.
Proof. reflexivity. Qed.

Lemma strlen_Some_lt (s : list byte) (n : nat) :
  strlen s = Some n -> (n < length s)%nat.
Proof.
  revert n. induction s as [|b s IH]; intros n; simpl; [discriminate|].
  destruct (Byte.eqb b NUL).
  - intros [= <-]. lia.
  - destruct (strlen s) as [m|]; simpl; intros Heq; simplify_eq.
    specialize (IH m eq_refl). simpl. lia.
Qed.

Lemma strlen_cstring (s : list byte) (n : nat) :
  strlen s = Some n -> length (cstring s) = n.
Proof.
  revert n. induction s as [|b s IH]; intros n; simpl; [discriminate|].
  destruct (Byte.eqb b NUL).
  - intros [= <-]. reflexivity.
  - destruct (strlen s) as [m|]; simpl; intros Heq; simplify_eq.
    simpl. f_equal. apply IH. reflexivity.
Qed.

Lemma strlen_terminated (s : list byte) :
  zero_terminated s = true <-> is_Some (strlen s).
Proof.
  unfold zero_terminated. induction s as [|b s IH]; simpl.
  - split; [discriminate|]. intros [n Hn]. discriminate.
  - destruct (Byte.eqb b NUL); simpl; [split; eauto|].
    rewrite IH. rewrite fmap_is_Some. reflexivity.
Qed.

Lemma strlen_None (s : list byte) :
  zero_terminated s = false <-> strlen s = None.
Proof.
  rewrite <- not_true_iff_false, strlen_terminated.
  rewrite eq_None_not_Some. reflexivity.
Qed.

Lemma zero_terminated_lookup (s : list byte) :
  zero_terminated s = true <-> exists i : nat, s !! i = Some NUL.
Proof.
  unfold zero_terminated. induction s as [|b s IH]; simpl.
  - split; [discriminate|]. intros [i Hi]. discriminate.
  - destruct (Byte.eqb b NUL) eqn:Eb; simpl.
    + apply Byte.byte_dec_bl in Eb. subst b.
      split; [|done]. intros _. exists 0%nat. reflexivity.
    + rewrite IH. split.
      * intros [i Hi]. exists (S i). exact Hi.
      * intros [[|i] Hi]; simpl in Hi; [|eauto].
        injection Hi as ->. discriminate.
Qed.

Lemma calls_of_app {K A} (m : M K A) (p : process K) (l : list event) :
  trace (snd (m p)) = trace p ++ l -> calls_of m p = l.
Proof. unfold calls_of. intros ->. apply drop_app_length. Qed.

(** ** The runs of the two functions *)

Section Runs.
Context {K : Type} `{Kernel K}.
Implicit Types (p : process K) (socket ifindex : Z) (ifname : list byte).

Lemma socket_SIOCGIFNAME_run socket ifindex ifname p :
  socket_SIOCGIFNAME socket ifindex ifname p =
  (Returned
     (if io_ret (resolve_reply p socket ifindex) <? 0
      then (neg_int (io_errno (resolve_reply p socket ifindex)), ifname)
      else (0, memcpy ifname (reply_name p socket ifindex) IFNAMSIZ)),
   resolved p socket ifindex).
Proof.
  unfold socket_SIOCGIFNAME, resolved, reply_name, resolve_reply, resolve_req,
    bind, ioctl, get_errno, ret. simpl.
  destruct (io_ret _ <? 0); reflexivity.
Qed.

Lemma socket_SIOCGIFNAME_ok socket ifindex ifname p :
  length ifname = IFNAMSIZ ->
  0 <= io_ret (resolve_reply p socket ifindex) ->
  socket_SIOCGIFNAME socket ifindex ifname p =
    (Returned (0, take IFNAMSIZ (reply_name p socket ifindex)),
     resolved p socket ifindex).
Proof.
  intros Hlen Hret. rewrite socket_SIOCGIFNAME_run.
  replace (io_ret _ <? 0) with false by (symmetry; apply Z.ltb_ge; lia).
  rewrite memcpy_whole by exact Hlen. reflexivity.
Qed.

Lemma trace_resolved p socket ifindex :
  trace (resolved p socket ifindex) =
  trace p ++ [resolve_event p socket ifindex].
Proof. reflexivity. Qed.

Lemma errno_resolved p socket ifindex :
  io_ret (resolve_reply p socket ifindex) < 0 ->
  errno (resolved p socket ifindex) = io_errno (resolve_reply p socket ifindex).
Proof.
  intros Hr. unfold resolved, resolve_reply, ioctl. simpl.
  apply Z.ltb_lt in Hr. unfold resolve_reply in Hr. rewrite Hr. reflexivity.
Qed.

Lemma trace_bound p socket ifname len :
  trace (bound p socket ifname len) =
  trace p ++ [bind_event p socket ifname len].
Proof. reflexivity. Qed.

Lemma trace_index_tried p socket ifindex opt :
  trace (index_tried p socket ifindex opt) =
  trace p ++ [index_event p socket ifindex opt].
Proof. reflexivity. Qed.

Lemma trace_bind_result p socket ifname :
  trace (snd (bind_result p socket ifname)) =
  trace p ++ bind_calls p socket ifname.
Proof.
  unfold bind_result, bind_calls. destruct (strlen ifname); simpl;
    [reflexivity|].
  symmetry. apply app_nil_r.
Qed.

Lemma socket_bind_if_neg cfg p socket ifindex :
  ifindex < 0 -> socket_bind_if_with cfg socket ifindex p = (Aborted, p).
Proof.
  intros Hi. unfold socket_bind_if_with, bind, assert.
  apply Z.leb_gt in Hi. rewrite Hi. reflexivity.
Qed.

Lemma socket_bind_if_zero p socket :
  socket_bind_if socket 0 p = bind_result p socket (zeroed IFNAMSIZ).
Proof.
  unfold socket_bind_if, socket_bind_if_with, bind_result, bound, bind_reply,
    bind, assert, ret, defined, setsockopt, get_errno. simpl.
  destruct (so_ret _ <? 0); reflexivity.
Qed.

Lemma socket_bind_if_pos p socket ifindex :
  0 < ifindex ->
  socket_bind_if socket ifindex p =
  if io_ret (resolve_reply p socket ifindex) <? 0 then
    if neg_int (io_errno (resolve_reply p socket ifindex)) =? 0
    then bind_result (resolved p socket ifindex) socket (zeroed IFNAMSIZ)
    else (Returned (neg_int (io_errno (resolve_reply p socket ifindex))),
          resolved p socket ifindex)
  else bind_result (resolved p socket ifindex) socket
         (take IFNAMSIZ (reply_name p socket ifindex)).
Proof.
  intros Hi. unfold socket_bind_if, socket_bind_if_with.
  unfold bind at 1. unfold assert.
  replace (0 <=? ifindex) with true by (symmetry; apply Z.leb_le; lia).
  unfold bind at 1. unfold ret at 1.
  replace (0 <? ifindex) with true by (symmetry; apply Z.ltb_lt; lia).
  unfold bind at 1. unfold bind at 1.
  rewrite socket_SIOCGIFNAME_run, memcpy_zeroed.
  destruct (io_ret _ <? 0).
  - unfold ret at 1. destruct (neg_int _ =? 0); [|reflexivity].
    unfold bind_result, bound, bind_reply, bind, defined, setsockopt,
      get_errno, ret.
    destruct (strlen _); [|reflexivity]. simpl.
    destruct (so_ret _ <? 0); reflexivity.
  - unfold ret at 1. simpl.
    unfold bind_result, bound, bind_reply, bind, defined, setsockopt,
      get_errno, ret.
    destruct (strlen _); [|reflexivity]. simpl.
    destruct (so_ret _ <? 0); reflexivity.
Qed.

Lemma socket_bind_if_with_Some p socket ifindex opt :
  0 <= ifindex ->
  socket_bind_if_with (Some opt) socket ifindex p =
  if 0 <=? so_ret (index_reply p socket ifindex opt) then
    (Returned 0, index_tried p socket ifindex opt)
  else if so_errno (index_reply p socket ifindex opt) =? ENOPROTOOPT then
    socket_bind_if socket ifindex (index_tried p socket ifindex opt)
  else
    (Returned (neg_int (so_errno (index_reply p socket ifindex opt))),
     index_tried p socket ifindex opt).
Proof.
  intros Hi. unfold socket_bind_if, socket_bind_if_with.
  unfold bind at 1. unfold bind at 4. unfold assert.
  replace (0 <=? ifindex) with true by (symmetry; apply Z.leb_le; lia).
  unfold bind at 1. unfold bind at 1.
  unfold setsockopt at 1. unfold index_reply, index_tried, setsockopt at 3.
  simpl.
  destruct (0 <=? so_ret _) eqn:Er; [reflexivity|].
  apply Z.leb_gt in Er. apply Z.ltb_lt in Er. rewrite Er.
  unfold bind at 1. unfold get_errno at 1. simpl.
  destruct (so_errno _ =? ENOPROTOOPT); reflexivity.
Qed.

Lemma trace_socket_bind_if p socket ifindex :
  trace (snd (socket_bind_if socket ifindex p)) =
  trace p ++ name_based_calls p socket ifindex.
Proof.
  unfold name_based_calls.
  destruct (0 <? ifindex) eqn:Epos.
  - apply Z.ltb_lt in Epos. rewrite socket_bind_if_pos by exact Epos.
    destruct (io_ret _ <? 0); [destruct (neg_int _ =? 0)|]; cbn [snd];
      rewrite ?trace_bind_result, trace_resolved, <- ?app_assoc; reflexivity.
  - apply Z.ltb_ge in Epos. destruct (ifindex =? 0) eqn:Ez.
    + apply Z.eqb_eq in Ez. subst ifindex.
      rewrite socket_bind_if_zero. apply trace_bind_result.
    + apply Z.eqb_neq in Ez. unfold socket_bind_if.
      rewrite socket_bind_if_neg by lia. simpl. symmetry. apply app_nil_r.
Qed.

Lemma calls_socket_bind_if p socket ifindex :
  calls_of (socket_bind_if socket ifindex) p = name_based_calls p socket ifindex.
Proof. apply calls_of_app, trace_socket_bind_if. Qed.

Lemma calls_socket_bind_if_with_Some p socket ifindex opt :
  0 <= ifindex ->
  calls_of (socket_bind_if_with (Some opt) socket ifindex) p =
  index_event p socket ifindex opt ::
  (if unsupported p socket ifindex opt
   then name_based_calls (index_tried p socket ifindex opt) socket ifindex
   else []).
Proof.
  intros Hi. apply calls_of_app.
  rewrite socket_bind_if_with_Some by exact Hi. unfold unsupported.
  destruct (0 <=? so_ret _) eqn:Er.
  - apply Z.leb_le in Er.
    replace (so_ret _ <? 0) with false by (symmetry; apply Z.ltb_ge; lia).
    reflexivity.
  - apply Z.leb_gt in Er.
    replace (so_ret _ <? 0) with true by (symmetry; apply Z.ltb_lt; lia).
    simpl. destruct (so_errno _ =? ENOPROTOOPT); [|reflexivity].
    rewrite trace_socket_bind_if, trace_index_tried, <- app_assoc.
    reflexivity.
Qed.

Lemma bind_result_not_aborted p socket ifname :
  fst (bind_result p socket ifname) <> Aborted.
Proof. unfold bind_result. destruct (strlen ifname); discriminate. Qed.

Lemma socket_bind_if_not_aborted p socket ifindex :
  0 <= ifindex -> fst (socket_bind_if socket ifindex p) <> Aborted.
Proof.
  intros Hi. destruct (Z.eq_dec ifindex 0) as [->|Hne].
  - rewrite socket_bind_if_zero. apply bind_result_not_aborted.
  - rewrite socket_bind_if_pos by lia.
    destruct (io_ret _ <? 0); [destruct (neg_int _ =? 0)|];
      try apply bind_result_not_aborted.
    discriminate.
Qed.

Lemma socket_bind_if_with_not_aborted cfg p socket ifindex :
  0 <= ifindex -> fst (socket_bind_if_with cfg socket ifindex p) <> Aborted.
Proof.
  intros Hi. destruct cfg as [opt|];
    [|apply socket_bind_if_not_aborted; exact Hi].
  rewrite socket_bind_if_with_Some by exact Hi.
  destruct (0 <=? so_ret _); [discriminate|].
  destruct (so_errno _ =? ENOPROTOOPT); [|discriminate].
  apply socket_bind_if_not_aborted; exact Hi.
Qed.

Lemma calls_socket_bind_if_neg cfg p socket ifindex :
  ifindex < 0 -> calls_of (socket_bind_if_with cfg socket ifindex) p = [].
Proof.
  intros Hi. apply calls_of_app. rewrite socket_bind_if_neg by exact Hi.
  simpl. symmetry. apply app_nil_r.
Qed.

Lemma name_based_calls_zero p socket :
  name_based_calls p socket 0 = [bind_event p socket (zeroed IFNAMSIZ) 0].
Proof. reflexivity. Qed.

Lemma name_based_calls_neg p socket ifindex :
  ifindex < 0 -> name_based_calls p socket ifindex = [].
Proof.
  intros Hi. unfold name_based_calls.
  replace (0 <? ifindex) with false by (symmetry; apply Z.ltb_ge; lia).
  replace (ifindex =? 0) with false by (symmetry; apply Z.eqb_neq; lia).
  reflexivity.
Qed.

Lemma ioctl_in_name_based_calls p socket ifindex :
  existsb is_ioctl (name_based_calls p socket ifindex) = (0 <? ifindex).
Proof.
  unfold name_based_calls, bind_calls.
  destruct (0 <? ifindex); [reflexivity|].
  destruct (ifindex =? 0); reflexivity.
Qed.

Lemma no_index_attempt_in_name_based_calls p socket ifindex :
  forallb (fun e => negb (is_index_attempt socket ifindex e))
    (name_based_calls p socket ifindex) = true.
Proof.
  unfold name_based_calls, bind_calls.
  destruct (0 <? ifindex).
  - destruct (io_ret _ <? 0); [destruct (neg_int _ =? 0)|];
      try reflexivity; destruct (strlen _); reflexivity.
  - destruct (ifindex =? 0); reflexivity.
Qed.

Lemma exact_length_bind_calls p socket ifname :
  (length ifname <= IFNAMSIZ)%nat ->
  forallb exact_length (bind_calls p socket ifname) = true.
Proof.
  intros Hlen. unfold bind_calls.
  destruct (strlen ifname) as [n|] eqn:En; [|reflexivity].
  unfold exact_length. simpl. rewrite En.
  pose proof (strlen_Some_lt _ _ En) as Hlt.
  rewrite Z.eqb_refl. simpl.
  rewrite andb_true_r. apply Nat.ltb_lt. lia.
Qed.

Lemma exact_length_name_based_calls p socket ifindex :
  forallb exact_length (name_based_calls p socket ifindex) = true.
Proof.
  assert (Hz : (length (zeroed IFNAMSIZ) <= IFNAMSIZ)%nat)
    by (unfold zeroed; rewrite length_replicate; lia).
  unfold name_based_calls.
  destruct (0 <? ifindex).
  - simpl. destruct (io_ret _ <? 0); [destruct (neg_int _ =? 0)|];
      try reflexivity; apply exact_length_bind_calls; try exact Hz.
    rewrite length_take. lia.
  - destruct (ifindex =? 0); [|reflexivity].
    apply exact_length_bind_calls, Hz.
Qed.

End Runs.

(** ** Runs on the reference kernel *)

Lemma bytes_eqb_refl (n : list byte) : bytes_eqb n n = true.
Proof.
  induction n as [|b n IH]; simpl; [reflexivity|].
  rewrite IH, andb_true_r. apply Byte.byte_dec_lb. reflexivity.
Qed.

Lemma index_of_name_of (i : Z) (n : list byte) (t : list (Z * list byte)) :
  name_of i t = Some n -> is_Some (index_of n t).
Proof.
  induction t as [|[j m] t IH]; simpl; [discriminate|].
  destruct (j =? i).
  - intros [= ->]. rewrite bytes_eqb_refl. eauto.
  - intros Hn. destruct (bytes_eqb m n); [eauto | apply IH, Hn].
Qed.

Lemma strlen_app_NUL (n rest : list byte) :
  zero_terminated n = false -> strlen (n ++ NUL :: rest) = Some (length n).
Proof.
  unfold zero_terminated. induction n as [|b n IH]; simpl; [reflexivity|].
  destruct (Byte.eqb b NUL); simpl; [discriminate|].
  intros Hn. rewrite IH by exact Hn. reflexivity.
Qed.

Lemma cstring_app_NUL (n rest : list byte) :
  zero_terminated n = false -> cstring (n ++ NUL :: rest) = n.
Proof.
  unfold zero_terminated. induction n as [|b n IH]; simpl; [reflexivity|].
  destruct (Byte.eqb b NUL); simpl; [discriminate|].
  intros Hn. rewrite IH by exact Hn. reflexivity.
Qed.

Lemma cstring_no_NUL (n : list byte) :
  zero_terminated n = false -> cstring n = n.
Proof.
  unfold zero_terminated. induction n as [|b n IH]; simpl; [reflexivity|].
  destruct (Byte.eqb b NUL); simpl; [discriminate|].
  intros Hn. rewrite IH by exact Hn. reflexivity.
Qed.

(** A name within the kernel's rules, as it lands in [ifr_name]. *)
Lemma valid_name_in_ifr_name (n : list byte) :
  valid_name n = true ->
  n <> []
  /\ (length n < IFNAMSIZ)%nat
  /\ zero_terminated n = false
  /\ in_ifr_name n = n ++ zeroed (IFNAMSIZ - length n)
  /\ strlen (in_ifr_name n) = Some (length n)
  /\ cstring (in_ifr_name n) = n.
Proof.
  unfold valid_name. intros Hv.
  apply andb_true_iff in Hv as [Hv Hz]. apply andb_true_iff in Hv as [He Hl].
  apply negb_true_iff in Hz. apply Nat.ltb_lt in Hl.
  assert (Hne : n <> []) by (intros ->; discriminate).
  assert (Hpad : in_ifr_name n = n ++ zeroed (IFNAMSIZ - length n)).
  { unfold in_ifr_name, zeroed.
    rewrite take_app_ge by lia. rewrite take_replicate.
    do 2 f_equal. lia. }
  repeat split; try assumption; rewrite Hpad; unfold zeroed;
    (destruct (IFNAMSIZ - length n)%nat as [|d] eqn:Ed; [lia|]); simpl.
  - apply strlen_app_NUL, Hz.
  - apply cstring_app_NUL, Hz.
Qed.

Lemma kern_resolved (q : process state) (fd i : Z) :
  kern (resolved q fd i) = kern q.
Proof.
  unfold resolved, ioctl. simpl. unfold do_ioctl.
  destruct (socks (kern q) !! fd); [|reflexivity].
  destruct (SIOCGIFNAME =? SIOCGIFNAME); [|reflexivity].
  destruct (name_of _ _); reflexivity.
Qed.

Lemma resolve_reply_closed (q : process state) (fd i : Z) :
  socks (kern q) !! fd = None ->
  io_ret (resolve_reply q fd i) = -1 /\ io_errno (resolve_reply q fd i) = EBADF.
Proof.
  intros Hfd. unfold resolve_reply. simpl. unfold do_ioctl.
  rewrite Hfd. split; reflexivity.
Qed.

Lemma resolve_reply_open (q : process state) (fd i b : Z) :
  socks (kern q) !! fd = Some b ->
  match name_of i (ifaces (kern q)) with
  | None =>
      io_ret (resolve_reply q fd i) = -1
      /\ io_errno (resolve_reply q fd i) = ENODEV
  | Some n =>
      io_ret (resolve_reply q fd i) = 0
      /\ reply_name q fd i = in_ifr_name n
  end.
Proof.
  intros Hfd. unfold reply_name, resolve_reply. simpl. unfold do_ioctl.
  rewrite Hfd. change (SIOCGIFNAME =? SIOCGIFNAME) with true. simpl.
  destruct (name_of i (ifaces (kern q))); split; reflexivity.
Qed.

Lemma take_in_ifr_name (n : list byte) :
  take IFNAMSIZ (in_ifr_name n) = in_ifr_name n.
Proof. unfold in_ifr_name. rewrite take_take. f_equal. Qed.

Lemma bind_result_closed (q : process state) (fd : Z) (buf : list byte) :
  socks (kern q) !! fd = None -> kern (snd (bind_result q fd buf)) = kern q.
Proof.
  intros Hfd. unfold bind_result. destruct (strlen buf); [|reflexivity].
  simpl. unfold do_setsockopt. rewrite Hfd. reflexivity.
Qed.

Lemma bind_result_open (q : process state) (fd b : Z) (buf : list byte) :
  socks (kern q) !! fd = Some b ->
  match name_target (kern q) buf with
  | Some j =>
      fst (bind_result q fd buf) = Returned 0
      /\ kern (snd (bind_result q fd buf)) = set_bound (kern q) fd j
  | None => kern (snd (bind_result q fd buf)) = kern q
  end.
Proof.
  intros Hfd. unfold name_target, bind_result.
  destruct (strlen buf) as [len|]; [|reflexivity].
  unfold bound, bind_reply, setsockopt. simpl. unfold do_setsockopt.
  rewrite Hfd.
  change (negb (SOL_SOCKET =? SOL_SOCKET)) with false.
  change (SO_BINDTODEVICE =? SO_BINDTODEVICE) with true. cbv iota.
  replace (Z.of_nat len <? 0) with false by (symmetry; apply Z.ltb_ge; lia).
  rewrite Nat2Z.id.
  destruct (cstring _) as [|c dev]; [split; reflexivity|].
  destruct (index_of _ _); [split; reflexivity | reflexivity].
Qed.

Lemma kern_socket_bind_if (q : process state) (fd i : Z) :
  0 <= i ->
  match bind_target (kern q) fd i with
  | Some j =>
      fst (socket_bind_if fd i q) = Returned 0
      /\ kern (snd (socket_bind_if fd i q)) = set_bound (kern q) fd j
  | None => kern (snd (socket_bind_if fd i q)) = kern q
  end.
Proof.
  intros Hi. unfold bind_target.
  destruct (socks (kern q) !! fd) as [b|] eqn:Hfd.
  - destruct (Z.eqb_spec i 0) as [->|Hne].
    + rewrite socket_bind_if_zero. apply (bind_result_open q fd b), Hfd.
    + rewrite socket_bind_if_pos by lia.
      pose proof (resolve_reply_open q fd i b Hfd) as Hrep.
      destruct (name_of i (ifaces (kern q))) as [n|].
      * destruct Hrep as [Hret Hname]. rewrite Hret, Hname, take_in_ifr_name.
        change (0 <? 0) with false. cbv iota.
        pose proof (bind_result_open (resolved q fd i) fd b (in_ifr_name n))
          as Hb.
        rewrite kern_resolved in Hb. apply Hb, Hfd.
      * destruct Hrep as [Hret Herr]. rewrite Hret, Herr.
        change (-1 <? 0) with true. change (neg_int ENODEV =? 0) with false.
        cbv iota. apply kern_resolved.
  - destruct (Z.eqb_spec i 0) as [->|Hne].
    + rewrite socket_bind_if_zero. apply bind_result_closed, Hfd.
    + rewrite socket_bind_if_pos by lia.
      destruct (resolve_reply_closed q fd i Hfd) as [Hret Herr].
      rewrite Hret, Herr.
      change (-1 <? 0) with true. change (neg_int EBADF =? 0) with false.
      cbv iota. apply kern_resolved.
Qed.

Lemma bind_target_open (k : state) (fd i j : Z) :
  bind_target k fd i = Some j -> is_Some (socks k !! fd).
Proof.
  unfold bind_target. destruct (socks k !! fd); [eauto | discriminate].
Qed.

Lemma bind_target_set_bound (k : state) (fd i j b : Z) :
  socks k !! fd = Some b ->
  bind_target (set_bound k fd j) fd i = bind_target k fd i.
Proof.
  intros Hfd. unfold bind_target, set_bound. simpl.
  rewrite lookup_insert_eq, Hfd. reflexivity.
Qed.

Lemma set_bound_twice (k : state) (fd j j' : Z) :
  set_bound (set_bound k fd j) fd j' = set_bound k fd j'.
Proof. unfold set_bound. simpl. rewrite insert_insert_eq. reflexivity. Qed.

Lemma bind_target_zero (k : state) (fd b : Z) :
  socks k !! fd = Some b -> bind_target k fd 0 = Some 0.
Proof. intros Hfd. unfold bind_target. rewrite Hfd. reflexivity. Qed.

Lemma bind_target_valid (k : state) (fd i b : Z) (n : list byte) :
  socks k !! fd = Some b -> 0 < i ->
  name_of i (ifaces k) = Some n -> valid_name n = true ->
  exists j : Z, index_of n (ifaces k) = Some j /\ bind_target k fd i = Some j.
Proof.
  intros Hfd Hi Hn Hv.
  destruct (index_of_name_of _ _ _ Hn) as [j Hj]. exists j.
  split; [exact Hj|].
  destruct (valid_name_in_ifr_name n Hv) as (Hne & Hlen & Hz & Hpad & Hs & _).
  unfold bind_target, name_target. rewrite Hfd, Hn, Hs.
  replace (i =? 0) with false by (symmetry; apply Z.eqb_neq; lia).
  replace (Nat.min (length n) (IFNAMSIZ - 1)) with (length n) by lia.
  rewrite Hpad, take_app_length, cstring_no_NUL by exact Hz.
  destruct n; [congruence | exact Hj].
Qed.

(** * The claims *)

(** ** The resolver *)

(** C2, as amended: after a successful kernel request [socket_SIOCGIFNAME]
    checks nothing; it returns 0 and the caller's buffer holds the
    [IFNAMSIZ] bytes of the kernel's [ifr_name], byte for byte.  What it
    stores is zero-terminated exactly when the kernel's reply has a zero
    byte among its first [IFNAMSIZ] bytes. *)
Theorem resolver_stores_reply_verbatim {K : Type} `{Kernel K}
  (p : process K) (socket ifindex : Z) (ifname : list byte) :
  length ifname = IFNAMSIZ ->
  0 <= io_ret (resolve_reply p socket ifindex) ->
  socket_SIOCGIFNAME socket ifindex ifname p =
    (Returned (0, take IFNAMSIZ (reply_name p socket ifindex)),
     resolved p socket ifindex)
  /\ (zero_terminated (take IFNAMSIZ (reply_name p socket ifindex)) = true <->
      exists i : nat,
        (i < IFNAMSIZ)%nat /\ reply_name p socket ifindex !! i = Some NUL).
Proof.
  intros Hlen Hret. split.
  - apply socket_SIOCGIFNAME_ok; assumption.
  - rewrite zero_terminated_lookup. split.
    + intros [i Hi]. apply lookup_take_Some in Hi. exists i. tauto.
    + intros [i [Hi Hn]]. exists i. apply lookup_take_Some. tauto.
Qed.

Lemma resolver_stores_reply_verbatim_witness :
  length (zeroed IFNAMSIZ) = IFNAMSIZ
  /\ 0 <= io_ret (resolve_reply (boot k0) 3 1)
  /\ fst (socket_SIOCGIFNAME 3 1 (zeroed IFNAMSIZ) (boot k0)) =
     Returned (0, in_ifr_name name_lo).
Proof.
  split; [by_computation|]. split; [by_computation|].
  destruct (resolver_stores_reply_verbatim (boot k0) 3 1 (zeroed IFNAMSIZ))
    as [Hrun _]; [by_computation | by_computation |].
  rewrite Hrun. reflexivity.
Defined.

(** C2, as stated, fails: the kernel state [k_long] answers the request
    for interface 1 with sixteen bytes ["a"]; the call returns 0 and the
    caller's buffer holds these sixteen bytes, none of which is zero. *)
Lemma resolver_unterminated_reply :
  fst (socket_SIOCGIFNAME 3 1 (zeroed IFNAMSIZ) (boot k_long)) =
    Returned (0, replicate 16 x61)
  /\ zero_terminated (replicate 16 x61) = false.
Proof. split; reflexivity. Qed.

(** C8: when the kernel request fails, [socket_SIOCGIFNAME] returns the
    negated error code, a negative number, and the caller's buffer is
    what it was. *)
Theorem resolver_failure_keeps_buffer {K : Type} `{Kernel K}
  (p : process K) (socket ifindex : Z) (ifname : list byte) :
  io_ret (resolve_reply p socket ifindex) < 0 ->
  0 < io_errno (resolve_reply p socket ifindex) <= INT_MAX ->
  socket_SIOCGIFNAME socket ifindex ifname p =
    (Returned (- io_errno (resolve_reply p socket ifindex), ifname),
     resolved p socket ifindex)
  /\ - io_errno (resolve_reply p socket ifindex) < 0.
Proof.
  intros Hret Herr. destruct (neg_int_errno _ Herr) as [Hneg Hlt].
  split; [|exact Hlt].
  rewrite socket_SIOCGIFNAME_run.
  replace (io_ret _ <? 0) with true by (symmetry; apply Z.ltb_lt; lia).
  rewrite Hneg. reflexivity.
Qed.

Lemma resolver_failure_keeps_buffer_witness :
  io_ret (resolve_reply (boot k0) 3 7) < 0
  /\ 0 < io_errno (resolve_reply (boot k0) 3 7) <= INT_MAX
  /\ fst (socket_SIOCGIFNAME 3 7 name_eth0 (boot k0)) =
     Returned (- ENODEV, name_eth0).
Proof.
  split; [by_computation|]. split; [split; by_computation|].
  destruct (resolver_failure_keeps_buffer (boot k0) 3 7 name_eth0)
    as [Hrun _]; [by_computation | split; by_computation |].
  rewrite Hrun. reflexivity.
Defined.

(** C9: when the kernel request succeeds and the reply is the name of an
    existing interface as the kernel's contract has it (it fills the
    [IFNAMSIZ] bytes of [ifr_name], has a zero byte among them, and is not
    empty), [socket_SIOCGIFNAME] returns 0 and the caller's buffer holds
    that name: zero-terminated, not empty, at most [IFNAMSIZ - 1] bytes
    long.  On the reference kernel this is the case for every open socket
    and every index in the interface table whose name is within the
    kernel's rules, and the string in the buffer is that name. *)
Theorem resolver_success_name :
  (forall (K : Type) (HK : Kernel K) (p : process K) (socket ifindex : Z)
     (ifname : list byte),
     length ifname = IFNAMSIZ ->
     0 <= io_ret (resolve_reply p socket ifindex) ->
     length (reply_name p socket ifindex) = IFNAMSIZ ->
     zero_terminated (reply_name p socket ifindex) = true ->
     cstring (reply_name p socket ifindex) <> [] ->
     exists (buf : list byte) (n : nat),
       socket_SIOCGIFNAME socket ifindex ifname p =
         (Returned (0, buf), resolved p socket ifindex)
       /\ buf = reply_name p socket ifindex
       /\ zero_terminated buf = true
       /\ strlen buf = Some n
       /\ length (cstring buf) = n
       /\ (0 < n <= IFNAMSIZ - 1)%nat)
  /\ (forall (q : process state) (fd b i : Z) (n ifname : list byte),
       length ifname = IFNAMSIZ ->
       socks (kern q) !! fd = Some b ->
       name_of i (ifaces (kern q)) = Some n ->
       valid_name n = true ->
       exists buf : list byte,
         socket_SIOCGIFNAME fd i ifname q = (Returned (0, buf), resolved q fd i)
         /\ zero_terminated buf = true
         /\ cstring buf = n
         /\ strlen buf = Some (length n)
         /\ (0 < length n <= IFNAMSIZ - 1)%nat).
Proof.
  split.
  - intros K HK p socket ifindex ifname Hlen Hret Hfit Hterm Hne.
    destruct (proj1 (strlen_terminated _) Hterm) as [n Hn].
    exists (reply_name p socket ifindex), n.
    pose proof (socket_SIOCGIFNAME_ok socket ifindex ifname p Hlen Hret)
      as Hrun.
    rewrite <- Hfit, firstn_all in Hrun.
    pose proof (strlen_Some_lt _ _ Hn) as Hlt.
    pose proof (strlen_cstring _ _ Hn) as Hcs.
    repeat split; try assumption; try lia.
    destruct n; [|lia].
    destruct (cstring (reply_name p socket ifindex));
      [congruence | discriminate].
  - intros q fd b i n ifname Hlen Hfd Hn Hv.
    pose proof (resolve_reply_open q fd i b Hfd) as Hrep.
    rewrite Hn in Hrep. destruct Hrep as [Hret Hname].
    destruct (valid_name_in_ifr_name n Hv) as (Hne & Hlt & Hz & _ & Hs & Hc).
    exists (in_ifr_name n).
    rewrite socket_SIOCGIFNAME_ok by (try exact Hlen; rewrite Hret; lia).
    rewrite Hname, take_in_ifr_name.
    split; [reflexivity|].
    split; [apply strlen_terminated; rewrite Hs; eauto|].
    split; [exact Hc|]. split; [exact Hs|].
    destruct n as [|c n]; [congruence|]. simpl length in *. lia.
Qed.

Lemma resolver_success_name_witness :
  length (zeroed IFNAMSIZ) = IFNAMSIZ
  /\ 0 <= io_ret (resolve_reply (boot k0) 3 2)
  /\ length (reply_name (boot k0) 3 2) = IFNAMSIZ
  /\ zero_terminated (reply_name (boot k0) 3 2) = true
  /\ cstring (reply_name (boot k0) 3 2) <> []
  /\ socks (kern (boot k0)) !! 3 = Some 0
  /\ name_of 2 (ifaces (kern (boot k0))) = Some name_eth0
  /\ valid_name name_eth0 = true
  /\ (exists (buf : list byte) (n : nat),
        fst (socket_SIOCGIFNAME 3 2 (zeroed IFNAMSIZ) (boot k0)) =
          Returned (0, buf)
        /\ strlen buf = Some n /\ (0 < n <= IFNAMSIZ - 1)%nat)
  /\ (exists buf : list byte,
        fst (socket_SIOCGIFNAME 3 2 (zeroed IFNAMSIZ) (boot k0)) =
          Returned (0, buf)
        /\ cstring buf = name_eth0).
Proof.
  assert (H1 : length (zeroed IFNAMSIZ) = IFNAMSIZ) by by_computation.
  assert (H2 : 0 <= io_ret (resolve_reply (boot k0) 3 2)) by by_computation.
  assert (H3 : length (reply_name (boot k0) 3 2) = IFNAMSIZ)
    by by_computation.
  assert (H4 : zero_terminated (reply_name (boot k0) 3 2) = true)
    by by_computation.
  assert (H5 : cstring (reply_name (boot k0) 3 2) <> []) by by_computation.
  assert (H6 : socks (kern (boot k0)) !! 3 = Some 0) by by_computation.
  assert (H7 : name_of 2 (ifaces (kern (boot k0))) = Some name_eth0)
    by by_computation.
  assert (H8 : valid_name name_eth0 = true) by by_computation.
  repeat (split; [assumption|]).
  destruct resolver_success_name as [Hany Href]. split.
  - destruct (Hany _ _ (boot k0) 3 2 (zeroed IFNAMSIZ) H1 H2 H3 H4 H5)
      as (buf & n & Hrun & _ & _ & Hn & _ & Hrange).
    exists buf, n. rewrite Hrun. split; [reflexivity|].
    split; [exact Hn | exact Hrange].
  - destruct (Href (boot k0) 3 0 2 name_eth0 (zeroed IFNAMSIZ) H1 H6 H7 H8)
      as (buf & Hrun & _ & Hc & _).
    exists buf. rewrite Hrun. split; [reflexivity | exact Hc].
Defined.

(** ** The binder *)

(** C5: with a negative index [socket_bind_if] stops at its [assert],
    before any system call and with the process as it was; with an index
    that is not negative it never stops there.  This holds with the
    [SO_BINDTOIF] block compiled out, as the source has it, and compiled
    in. *)
Theorem bind_if_asserts_index {K : Type} `{Kernel K}
  (cfg : option Z) (p : process K) (socket ifindex : Z) :
  (ifindex < 0 ->
   socket_bind_if_with cfg socket ifindex p = (Aborted, p)
   /\ calls_of (socket_bind_if_with cfg socket ifindex) p = [])
  /\ (0 <= ifindex ->
      fst (socket_bind_if_with cfg socket ifindex p) <> Aborted).
Proof.
  split.
  - intros Hi. split.
    + apply socket_bind_if_neg, Hi.
    + apply calls_socket_bind_if_neg, Hi.
  - apply socket_bind_if_with_not_aborted.
Qed.

Lemma bind_if_asserts_index_witness :
  -1 < 0 /\ 0 <= 1
  /\ socket_bind_if 3 (-1) (boot k0) = (Aborted, boot k0)
  /\ calls_of (socket_bind_if 3 (-1)) (boot k0) = []
  /\ fst (socket_bind_if 3 1 (boot k0)) <> Aborted.
Proof.
  split; [lia|]. split; [lia|].
  destruct (bind_if_asserts_index None (boot k0) 3 (-1)) as [Hneg _].
  destruct (bind_if_asserts_index None (boot k0) 3 1) as [_ Hpos].
  destruct Hneg as [Hrun Hcalls]; [lia|].
  split; [exact Hrun|]. split; [exact Hcalls|].
  apply Hpos. lia.
Defined.

(** C1, as amended: [socket_bind_if] as the source builds it, with the
    [SO_BINDTOIF] block under [#if 0], makes no index-based call at all.
    With the block compiled in, the first call sets the option to the raw
    index; the function returns 0 when that call succeeds, goes on with the
    name-based strategy when it fails with [ENOPROTOOPT] and only then,
    and returns the negated error code at once when it fails with any
    other code. *)
Theorem bind_if_strategy_order {K : Type} `{Kernel K}
  (p : process K) (socket ifindex opt : Z) :
  0 <= ifindex ->
  forallb (fun e => negb (is_index_attempt socket ifindex e))
    (calls_of (socket_bind_if socket ifindex) p) = true
  /\ attempts_index_first socket ifindex
       (calls_of (socket_bind_if_with (Some opt) socket ifindex) p) = true
  /\ calls_of (socket_bind_if_with (Some opt) socket ifindex) p =
       index_event p socket ifindex opt ::
       (if unsupported p socket ifindex opt
        then calls_of (socket_bind_if socket ifindex)
               (index_tried p socket ifindex opt)
        else [])
  /\ socket_bind_if_with (Some opt) socket ifindex p =
       if 0 <=? so_ret (index_reply p socket ifindex opt) then
         (Returned 0, index_tried p socket ifindex opt)
       else if so_errno (index_reply p socket ifindex opt) =? ENOPROTOOPT then
         socket_bind_if socket ifindex (index_tried p socket ifindex opt)
       else
         (Returned (neg_int (so_errno (index_reply p socket ifindex opt))),
          index_tried p socket ifindex opt).
Proof.
  intros Hi.
  rewrite !calls_socket_bind_if.
  rewrite calls_socket_bind_if_with_Some by exact Hi.
  split; [apply no_index_attempt_in_name_based_calls|].
  split.
  - unfold attempts_index_first, is_index_attempt, index_event, index_call.
    simpl. rewrite !Z.eqb_refl. reflexivity.
  - split; [reflexivity|].
    apply socket_bind_if_with_Some, Hi.
Qed.

Lemma bind_if_strategy_order_witness :
  0 <= 1
  /\ socket_bind_if_with (Some 62) 3 1 (boot k_new) =
       (Returned 0, index_tried (boot k_new) 3 1 62)
  /\ bound_dev (kern (index_tried (boot k_new) 3 1 62)) 3 = Some 1.
Proof.
  split; [lia|].
  destruct (bind_if_strategy_order (boot k_new) 3 1 62) as (_ & _ & _ & Hrun);
    [lia|].
  split; [rewrite Hrun; reflexivity | by_computation].
Defined.

(** C1, as stated, fails: on the kernel state [k_new], which offers binding
    by index, [socket_bind_if 3 1] starts with the [SIOCGIFNAME] request and
    goes on with [SO_BINDTODEVICE] and the name ["lo"]; its first call is
    not an index-based one. *)
Lemma bind_if_skips_index_strategy :
  attempts_index_first 3 1 (calls_of (socket_bind_if 3 1) (boot k_new)) = false
  /\ map ev_call (calls_of (socket_bind_if 3 1) (boot k_new)) =
       [Ioctl 3 SIOCGIFNAME (resolve_req 1);
        bind_call 3 (in_ifr_name name_lo) 2].
Proof. split; reflexivity. Qed.

(** C4: when the index is positive and the resolver returns an error,
    [socket_bind_if] returns that error and stops where the resolver
    stopped: its only call is the resolver's request, and no socket option
    is set. *)
Theorem bind_if_resolution_error {K : Type} `{Kernel K}
  (p p' : process K) (socket ifindex r : Z) (buf : list byte) :
  0 < ifindex ->
  socket_SIOCGIFNAME socket ifindex (zeroed IFNAMSIZ) p = (Returned (r, buf), p') ->
  r <> 0 ->
  socket_bind_if socket ifindex p = (Returned r, p')
  /\ calls_of (socket_bind_if socket ifindex) p = [resolve_event p socket ifindex]
  /\ existsb is_setsockopt (calls_of (socket_bind_if socket ifindex) p) = false.
Proof.
  intros Hi Hres Hr.
  rewrite socket_SIOCGIFNAME_run in Hres.
  injection Hres as Hrb Hp'.
  assert (Hrun : socket_bind_if socket ifindex p = (Returned r, p')).
  { rewrite socket_bind_if_pos by exact Hi.
    destruct (io_ret _ <? 0).
    - injection Hrb as Hr' _. rewrite Hr'.
      replace (r =? 0) with false by (symmetry; apply Z.eqb_neq; exact Hr).
      rewrite Hp'. reflexivity.
    - injection Hrb as Hr' _. congruence. }
  assert (Hcalls : calls_of (socket_bind_if socket ifindex) p =
                   [resolve_event p socket ifindex]).
  { apply calls_of_app. rewrite Hrun, <- Hp'. apply trace_resolved. }
  split; [exact Hrun|]. split; [exact Hcalls|].
  rewrite Hcalls. reflexivity.
Qed.

Lemma bind_if_resolution_error_witness :
  0 < 7
  /\ socket_SIOCGIFNAME 3 7 (zeroed IFNAMSIZ) (boot k0) =
       (Returned (- ENODEV, zeroed IFNAMSIZ), resolved (boot k0) 3 7)
  /\ - ENODEV <> 0
  /\ socket_bind_if 3 7 (boot k0) = (Returned (- ENODEV), resolved (boot k0) 3 7).
Proof.
  assert (H1 : 0 < 7) by lia.
  assert (H2 : socket_SIOCGIFNAME 3 7 (zeroed IFNAMSIZ) (boot k0) =
               (Returned (- ENODEV, zeroed IFNAMSIZ), resolved (boot k0) 3 7))
    by reflexivity.
  assert (H3 : - ENODEV <> 0) by by_computation.
  repeat (split; [assumption|]).
  exact (proj1 (bind_if_resolution_error _ _ _ _ _ _ H1 H2 H3)).
Defined.

(** C6: on a run in which the kernel's answer to the resolver's request,
    where the run makes one, is zero-terminated, every name-based call
    [socket_bind_if] makes passes, as its length, the number of bytes
    before the first zero byte of the array it passes, which is less than
    [IFNAMSIZ].  With the index 0 the only call is the name-based one with
    the zeroed array and the length 0; with a positive index, a successful
    request and a zero-terminated reply, the calls are the request and the
    name-based call with the length of the name. *)
Theorem bind_if_passes_string_length {K : Type} `{Kernel K}
  (cfg : option Z) (p : process K) (socket ifindex : Z) :
  (resolver_reply_terminated cfg p socket ifindex = true ->
   forallb exact_length (calls_of (socket_bind_if_with cfg socket ifindex) p)
   = true)
  /\ calls_of (socket_bind_if socket 0) p = [bind_event p socket (zeroed IFNAMSIZ) 0]
  /\ (forall n : nat,
       0 < ifindex ->
       0 <= io_ret (resolve_reply p socket ifindex) ->
       strlen (take IFNAMSIZ (reply_name p socket ifindex)) = Some n ->
       (n < IFNAMSIZ)%nat
       /\ calls_of (socket_bind_if socket ifindex) p =
            [resolve_event p socket ifindex;
             bind_event (resolved p socket ifindex) socket
               (take IFNAMSIZ (reply_name p socket ifindex)) n]).
Proof.
  split; [|split].
  - intros _. destruct (Z.lt_ge_cases ifindex 0) as [Hneg|Hpos].
    { rewrite calls_socket_bind_if_neg by exact Hneg. reflexivity. }
    destruct cfg as [opt|].
    + rewrite calls_socket_bind_if_with_Some by exact Hpos.
      simpl. destruct (unsupported _ _ _ _); [|reflexivity].
      apply exact_length_name_based_calls.
    + fold (socket_bind_if socket ifindex). rewrite calls_socket_bind_if.
      apply exact_length_name_based_calls.
  - rewrite calls_socket_bind_if. apply name_based_calls_zero.
  - intros n Hi Hret Hn. split.
    + pose proof (strlen_Some_lt _ _ Hn) as Hlt.
      rewrite length_take in Hlt. lia.
    + rewrite calls_socket_bind_if. unfold name_based_calls, bind_calls.
      replace (0 <? ifindex) with true by (symmetry; apply Z.ltb_lt; lia).
      replace (io_ret _ <? 0) with false by (symmetry; apply Z.ltb_ge; lia).
      rewrite Hn. reflexivity.
Qed.

Lemma bind_if_passes_string_length_witness :
  resolver_reply_terminated None (boot k0) 3 2 = true
  /\ 0 < 2
  /\ 0 <= io_ret (resolve_reply (boot k0) 3 2)
  /\ strlen (take IFNAMSIZ (reply_name (boot k0) 3 2)) = Some 4%nat
  /\ forallb exact_length (calls_of (socket_bind_if 3 2) (boot k0)) = true
  /\ map ev_call (calls_of (socket_bind_if 3 2) (boot k0)) =
       [Ioctl 3 SIOCGIFNAME (resolve_req 2);
        bind_call 3 (in_ifr_name name_eth0) 4].
Proof.
  assert (H0 : resolver_reply_terminated None (boot k0) 3 2 = true)
    by by_computation.
  assert (H1 : 0 < 2) by lia.
  assert (H2 : 0 <= io_ret (resolve_reply (boot k0) 3 2)) by by_computation.
  assert (H3 : strlen (take IFNAMSIZ (reply_name (boot k0) 3 2)) = Some 4%nat)
    by by_computation.
  split; [exact H0|]. split; [exact H1|]. split; [exact H2|].
  split; [exact H3|].
  destruct (bind_if_passes_string_length None (boot k0) 3 2)
    as (Hall & _ & Hpos).
  split; [exact (Hall H0)|].
  destruct (Hpos 4%nat H1 H2 H3) as [_ Hcalls].
  rewrite Hcalls. reflexivity.
Defined.

Lemma posix_errno_failed (e : event) :
  posix_errno e = true -> failed e = true ->
  neg_int (ev_errno e) = - ev_errno e /\ - ev_errno e < 0.
Proof.
  unfold posix_errno. intros Hp Hf. rewrite Hf in Hp. simpl in Hp.
  apply andb_true_iff in Hp as [Hlo Hhi].
  apply Z.ltb_lt in Hlo. apply Z.leb_le in Hhi.
  apply neg_int_errno. lia.
Qed.

(** C7: on a run in which every failed call reports a positive error code
    and the resolver's reply is zero-terminated, both functions return, and
    what they return is 0 when no call failed and the negated error code of
    the failed call, a negative number, otherwise.  The failed call is the
    last call of the run, and no call is made twice. *)
Theorem results_are_zero_or_negated_errno {K : Type} `{Kernel K}
  (p : process K) (socket ifindex : Z) (ifname : list byte) :
  0 <= ifindex ->
  posix_errno (resolve_event p socket ifindex) = true ->
  forallb posix_errno (calls_of (socket_bind_if socket ifindex) p) = true ->
  reply_terminated p socket ifindex = true ->
  (exists (r : Z) (buf : list byte),
     socket_SIOCGIFNAME socket ifindex ifname p =
       (Returned (r, buf), resolved p socket ifindex)
     /\ calls_of (socket_SIOCGIFNAME socket ifindex ifname) p =
          [resolve_event p socket ifindex]
     /\ r = (if failed (resolve_event p socket ifindex)
             then - ev_errno (resolve_event p socket ifindex) else 0)
     /\ (failed (resolve_event p socket ifindex) = true -> r < 0))
  /\ (exists r : Z,
       fst (socket_bind_if socket ifindex p) = Returned r
       /\ r = match first_failure (calls_of (socket_bind_if socket ifindex) p) with
              | Some e => - ev_errno e
              | None => 0
              end
       /\ (forall e : event,
             first_failure (calls_of (socket_bind_if socket ifindex) p) = Some e ->
             r < 0 /\ last (calls_of (socket_bind_if socket ifindex) p) = Some e)
       /\ NoDup (map ev_call (calls_of (socket_bind_if socket ifindex) p))).
Proof.
  intros Hi Hres Hall Hterm. split.
  - rewrite socket_SIOCGIFNAME_run.
    assert (Hcalls : calls_of (socket_SIOCGIFNAME socket ifindex ifname) p =
                     [resolve_event p socket ifindex]).
    { apply calls_of_app. rewrite socket_SIOCGIFNAME_run. apply trace_resolved. }
    destruct (failed (resolve_event p socket ifindex)) eqn:Ef.
    + destruct (posix_errno_failed _ Hres Ef) as [Hneg Hlt].
      unfold failed in Ef. simpl in Ef. rewrite Ef.
      eexists _, _. split; [reflexivity|]. split; [exact Hcalls|].
      split; [exact Hneg | intros _; simpl in Hneg; rewrite Hneg; exact Hlt].
    + unfold failed in Ef. simpl in Ef. rewrite Ef.
      eexists _, _. split; [reflexivity|]. split; [exact Hcalls|].
      split; [reflexivity | discriminate].
  - rewrite calls_socket_bind_if in *.
    destruct (Z.eq_dec ifindex 0) as [->|Hne].
    + rewrite socket_bind_if_zero, name_based_calls_zero in *.
      unfold bind_result. rewrite strlen_zeroed.
      simpl in Hall. rewrite andb_true_r in Hall.
      unfold first_failure. simpl.
      destruct (failed (bind_event p socket (zeroed IFNAMSIZ) 0)) eqn:Ef.
      * destruct (posix_errno_failed _ Hall Ef) as [Hneg Hlt].
        unfold failed in Ef. simpl in Ef, Hneg. rewrite Ef, Hneg.
        eexists. split; [reflexivity|]. split; [reflexivity|].
        split; [|repeat constructor; set_solver].
        intros e [= <-]. split; [exact Hlt | reflexivity].
      * unfold failed in Ef. simpl in Ef. rewrite Ef.
        eexists. split; [reflexivity|]. split; [reflexivity|].
        split; [discriminate | repeat constructor; set_solver].
    + assert (Hpos : 0 < ifindex) by lia.
      rewrite socket_bind_if_pos by exact Hpos.
      unfold name_based_calls in *.
      replace (0 <? ifindex) with true in * by (symmetry; apply Z.ltb_lt; lia).
      unfold reply_terminated in Hterm.
      destruct (io_ret (resolve_reply p socket ifindex) <? 0) eqn:Er.
      * assert (Ef : failed (resolve_event p socket ifindex) = true) by exact Er.
        destruct (posix_errno_failed _ Hres Ef) as [Hneg Hlt].
        simpl in Hneg, Hlt. rewrite Hneg.
        replace (- io_errno (resolve_reply p socket ifindex) =? 0) with false
          in * by (symmetry; apply Z.eqb_neq; lia).
        unfold first_failure. simpl. rewrite Ef.
        eexists. split; [reflexivity|]. split; [reflexivity|].
        split; [|repeat constructor; set_solver].
        intros e [= <-]. split; [exact Hlt | reflexivity].
      * simpl in Hterm.
        destruct (proj1 (strlen_terminated _) Hterm) as [n Hn].
        unfold bind_result, bind_calls in *. rewrite Hn in *.
        assert (Ef : failed (resolve_event p socket ifindex) = false) by exact Er.
        unfold first_failure. simpl. rewrite Ef.
        simpl in Hall. rewrite andb_true_r in Hall.
        apply andb_true_iff in Hall as [_ Hall].
        assert (Hnd : NoDup [Ioctl socket SIOCGIFNAME (resolve_req ifindex);
                             bind_call socket
                               (take IFNAMSIZ (reply_name p socket ifindex)) n]).
        { apply NoDup_cons. split; [|apply NoDup_singleton].
          intros Hin. apply list_elem_of_singleton in Hin. discriminate. }
        destruct (failed (bind_event (resolved p socket ifindex) socket
                            (take IFNAMSIZ (reply_name p socket ifindex)) n))
          eqn:Eb.
        -- destruct (posix_errno_failed _ Hall Eb) as [Hneg Hlt].
           unfold failed in Eb. simpl in Eb, Hneg. rewrite Eb, Hneg.
           eexists. split; [reflexivity|]. split; [reflexivity|].
           split; [|exact Hnd].
           intros e [= <-]. split; [exact Hlt | reflexivity].
        -- unfold failed in Eb. simpl in Eb. rewrite Eb.
           eexists. split; [reflexivity|]. split; [reflexivity|].
           split; [discriminate | exact Hnd].
Qed.

Lemma results_are_zero_or_negated_errno_witness :
  0 <= 7
  /\ posix_errno (resolve_event (boot k0) 3 7) = true
  /\ forallb posix_errno (calls_of (socket_bind_if 3 7) (boot k0)) = true
  /\ reply_terminated (boot k0) 3 7 = true
  /\ exists r : Z,
       fst (socket_bind_if 3 7 (boot k0)) = Returned r /\ r = - ENODEV.
Proof.
  assert (H1 : 0 <= 7) by lia.
  assert (H2 : posix_errno (resolve_event (boot k0) 3 7) = true)
    by by_computation.
  assert (H3 : forallb posix_errno (calls_of (socket_bind_if 3 7) (boot k0))
               = true) by by_computation.
  assert (H4 : reply_terminated (boot k0) 3 7 = true) by by_computation.
  repeat (split; [assumption|]).
  destruct (results_are_zero_or_negated_errno (boot k0) 3 7 [] H1 H2 H3 H4)
    as (_ & r & Hrun & Hr & _).
  exists r. split; [exact Hrun|]. rewrite Hr. reflexivity.
Defined.

(** C3: with the index 0, [socket_bind_if] makes one call, the name-based
    option with the zeroed array and the length 0, and no request to
    resolve a name; on the reference kernel this call succeeds on an open
    socket and leaves it bound to no interface, whatever it was bound to.
    With any index and either build, the resolver's request is among the
    calls exactly when the index is positive and the name-based strategy
    is reached. *)
Theorem bind_if_zero_clears_by_name :
  (forall (K : Type) (HK : Kernel K) (p : process K) (socket : Z),
     calls_of (socket_bind_if socket 0) p =
       [bind_event p socket (zeroed IFNAMSIZ) 0]
     /\ strlen (zeroed IFNAMSIZ) = Some 0%nat
     /\ cstring (zeroed IFNAMSIZ) = [])
  /\ (forall (K : Type) (HK : Kernel K) (cfg : option Z) (p : process K)
        (socket ifindex : Z),
       existsb is_ioctl (calls_of (socket_bind_if_with cfg socket ifindex) p) =
         (0 <? ifindex) && fell_through cfg p socket ifindex)
  /\ (forall (q : process state) (fd b : Z),
       socks (kern q) !! fd = Some b ->
       fst (socket_bind_if fd 0 q) = Returned 0
       /\ kern (snd (socket_bind_if fd 0 q)) = socket_new (kern q) fd
       /\ bound_dev (kern (snd (socket_bind_if fd 0 q))) fd = Some 0).
Proof.
  split; [|split].
  - intros K HK p socket. split; [|split; reflexivity].
    rewrite calls_socket_bind_if. apply name_based_calls_zero.
  - intros K HK cfg p socket ifindex.
    destruct (Z.lt_ge_cases ifindex 0) as [Hneg|Hi].
    { rewrite calls_socket_bind_if_neg by exact Hneg.
      replace (0 <? ifindex) with false by (symmetry; apply Z.ltb_ge; lia).
      reflexivity. }
    destruct cfg as [opt|].
    + rewrite calls_socket_bind_if_with_Some by exact Hi.
      unfold fell_through. simpl.
      destruct (unsupported p socket ifindex opt).
      * rewrite ioctl_in_name_based_calls, andb_true_r. reflexivity.
      * rewrite andb_false_r. reflexivity.
    + fold (socket_bind_if socket ifindex). rewrite calls_socket_bind_if.
      unfold fell_through. rewrite andb_true_r.
      apply ioctl_in_name_based_calls.
  - intros q fd b Hfd.
    pose proof (kern_socket_bind_if q fd 0 (Z.le_refl 0)) as Hk.
    rewrite (bind_target_zero _ _ _ Hfd) in Hk. destruct Hk as [Hret Hkern].
    split; [exact Hret|]. split; [exact Hkern|].
    rewrite Hkern. unfold bound_dev, set_bound. simpl.
    apply lookup_insert_eq.
Qed.

Lemma bind_if_zero_clears_by_name_witness :
  socks (kern (index_tried (boot k_new) 3 2 62)) !! 3 = Some 2
  /\ existsb is_ioctl (calls_of (socket_bind_if 3 0) (boot k_new)) = false
  /\ bound_dev
       (kern (snd (socket_bind_if 3 0 (index_tried (boot k_new) 3 2 62)))) 3
     = Some 0.
Proof.
  assert (H2 : socks (kern (index_tried (boot k_new) 3 2 62)) !! 3 = Some 2)
    by by_computation.
  split; [assumption|].
  destruct bind_if_zero_clears_by_name as (_ & Hres & Hclear).
  split.
  - exact (Hres _ _ None (boot k_new) 3 0).
  - exact (proj2 (proj2 (Hclear _ 3 2 H2))).
Defined.

(** C10: on the reference kernel, a second [socket_bind_if] with the same
    index leaves the kernel in the state the first one left it in.  For an
    open socket and the index of an interface with a name within the
    kernel's rules, the call succeeds and binds the socket to the interface
    of that name, and a following call with the index 0 succeeds and
    leaves the kernel in the state in which the socket is new: bound to no
    interface. *)
Theorem bind_if_idempotent (q : process state) (fd i b : Z) (n : list byte) :
  0 <= i ->
  kern (snd (socket_bind_if fd i (snd (socket_bind_if fd i q)))) =
    kern (snd (socket_bind_if fd i q))
  /\ (socks (kern q) !! fd = Some b ->
      0 < i ->
      name_of i (ifaces (kern q)) = Some n ->
      valid_name n = true ->
      fst (socket_bind_if fd i q) = Returned 0
      /\ (exists j : Z,
            index_of n (ifaces (kern q)) = Some j
            /\ bound_dev (kern (snd (socket_bind_if fd i q))) fd = Some j)
      /\ fst (socket_bind_if fd 0 (snd (socket_bind_if fd i q))) = Returned 0
      /\ kern (snd (socket_bind_if fd 0 (snd (socket_bind_if fd i q)))) =
           socket_new (kern q) fd
      /\ bound_dev
           (kern (snd (socket_bind_if fd 0 (snd (socket_bind_if fd i q))))) fd
         = Some 0).
Proof.
  intros Hi. split.
  - pose proof (kern_socket_bind_if q fd i Hi) as H1.
    pose proof (kern_socket_bind_if (snd (socket_bind_if fd i q)) fd i Hi)
      as H2.
    destruct (bind_target (kern q) fd i) as [j|] eqn:Ht.
    + destruct H1 as [_ H1]. rewrite H1 in H2.
      destruct (bind_target_open _ _ _ _ Ht) as [b' Hfd].
      rewrite (bind_target_set_bound _ _ _ _ _ Hfd), Ht in H2.
      destruct H2 as [_ H2]. rewrite H2, H1. apply set_bound_twice.
    + rewrite H1 in H2. rewrite Ht in H2. rewrite H2. symmetry. exact H1.
  - intros Hfd Hpos Hn Hv.
    destruct (bind_target_valid _ _ _ _ _ Hfd Hpos Hn Hv) as (j & Hj & Ht).
    pose proof (kern_socket_bind_if q fd i Hi) as H1.
    rewrite Ht in H1. destruct H1 as [Hret1 Hk1].
    assert (Hfd1 : socks (kern (snd (socket_bind_if fd i q))) !! fd = Some j).
    { rewrite Hk1. unfold set_bound. simpl. apply lookup_insert_eq. }
    pose proof (kern_socket_bind_if (snd (socket_bind_if fd i q)) fd 0
                  (Z.le_refl 0)) as H2.
    rewrite (bind_target_zero _ _ _ Hfd1) in H2. destruct H2 as [Hret2 Hk2].
    rewrite Hk1, set_bound_twice in Hk2.
    split; [exact Hret1|]. split; [exists j; split; [exact Hj | exact Hfd1]|].
    split; [exact Hret2|]. split; [exact Hk2|].
    rewrite Hk2. unfold bound_dev, socket_new, set_bound. simpl.
    apply lookup_insert_eq.
Qed.

Lemma bind_if_idempotent_witness :
  0 <= 2
  /\ socks (kern (boot k0)) !! 3 = Some 0
  /\ 0 < 2
  /\ name_of 2 (ifaces (kern (boot k0))) = Some name_eth0
  /\ valid_name name_eth0 = true
  /\ bound_dev (kern (snd (socket_bind_if 3 2 (boot k0)))) 3 = Some 2
  /\ kern (snd (socket_bind_if 3 2 (snd (socket_bind_if 3 2 (boot k0))))) =
       kern (snd (socket_bind_if 3 2 (boot k0)))
  /\ kern (snd (socket_bind_if 3 0 (snd (socket_bind_if 3 2 (boot k0))))) =
       socket_new k0 3.
Proof.
  assert (H1 : 0 <= 2) by lia.
  assert (H2 : socks (kern (boot k0)) !! 3 = Some 0) by by_computation.
  assert (H3 : 0 < 2) by lia.
  assert (H4 : name_of 2 (ifaces (kern (boot k0))) = Some name_eth0)
    by by_computation.
  assert (H5 : valid_name name_eth0 = true) by by_computation.
  repeat (split; [assumption|]).
  destruct (bind_if_idempotent (boot k0) 3 2 0 name_eth0 H1) as [Hsame Hclear].
  destruct (Hclear H2 H3 H4 H5) as (_ & _ & _ & Hnew & _).
  split; [by_computation|]. split; [exact Hsame | exact Hnew].
Defined.

(** * Further properties of the two functions *)

Lemma strlen_take_cstring (s : list byte) (n : nat) :
  strlen s = Some n -> take n s = cstring s.
Proof.
  revert n. induction s as [|b s IH]; intros n; simpl; [discriminate|].
  destruct (Byte.eqb b NUL).
  - intros Heq. simplify_eq. reflexivity.
  - destruct (strlen s) as [m|]; simpl; intros Heq; simplify_eq.
    simpl. f_equal. apply IH. reflexivity.
Qed.

Lemma cstring_no_zero (s : list byte) : zero_terminated (cstring s) = false.
Proof.
  unfold zero_terminated. induction s as [|b s IH]; simpl; [reflexivity|].
  destruct (Byte.eqb b NUL) eqn:Eb; simpl; [reflexivity|].
  rewrite Eb. exact IH.
Qed.

Lemma cstring_take (s : list byte) (k : nat) :
  zero_terminated (take k s) = true -> cstring (take k s) = cstring s.
Proof.
  unfold zero_terminated. revert k. induction s as [|b s IH]; intros k.
  - rewrite take_nil. discriminate.
  - destruct k as [|k]; simpl; [discriminate|].
    destruct (Byte.eqb b NUL); simpl; [reflexivity|].
    intros Hk. f_equal. apply IH, Hk.
Qed.

Section MoreRuns.
Context {K : Type} `{Kernel K}.
Implicit Types (p : process K) (socket ifindex : Z) (ifname : list byte).

Lemma well_addressed_bind_calls p socket ifindex ifname :
  forallb (well_addressed socket ifindex) (bind_calls p socket ifname) = true.
Proof.
  unfold bind_calls. destruct (strlen ifname); [|reflexivity].
  unfold well_addressed. simpl. rewrite !Z.eqb_refl. reflexivity.
Qed.

Lemma well_addressed_name_based_calls p socket ifindex :
  forallb (well_addressed socket ifindex) (name_based_calls p socket ifindex)
  = true.
Proof.
  unfold name_based_calls. destruct (0 <? ifindex).
  - cbn [forallb]. apply andb_true_iff. split.
    + unfold well_addressed. simpl. rewrite !Z.eqb_refl. reflexivity.
    + destruct (io_ret _ <? 0); [destruct (neg_int _ =? 0)|];
        try reflexivity; apply well_addressed_bind_calls.
  - destruct (ifindex =? 0); [|reflexivity].
    apply well_addressed_bind_calls.
Qed.

Lemma length_bind_calls p socket ifname :
  (length (bind_calls p socket ifname) <= 1)%nat
  /\ length (List.filter is_ioctl (bind_calls p socket ifname)) = 0%nat.
Proof.
  unfold bind_calls. destruct (strlen ifname); simpl; split; try lia;
    reflexivity.
Qed.

Lemma calls_socket_bind_if_with p socket ifindex cfg :
  calls_of (socket_bind_if_with cfg socket ifindex) p =
  match cfg with
  | None => name_based_calls p socket ifindex
  | Some opt =>
      if ifindex <? 0 then []
      else
        index_event p socket ifindex opt ::
        (if unsupported p socket ifindex opt
         then name_based_calls (index_tried p socket ifindex opt) socket ifindex
         else [])
  end.
Proof.
  destruct cfg as [opt|].
  - destruct (ifindex <? 0) eqn:Ei.
    + apply calls_socket_bind_if_neg, Z.ltb_lt, Ei.
    + apply calls_socket_bind_if_with_Some, Z.ltb_ge, Ei.
  - apply calls_socket_bind_if.
Qed.

End MoreRuns.

(** X1: every system call of the two functions is made on the socket they
    were given: the request is [SIOCGIFNAME] for the index asked for, and
    every socket option is set at the level [SOL_SOCKET].  No other
    descriptor is touched, with either build and for every index. *)
Theorem calls_stay_on_socket {K : Type} `{Kernel K}
  (cfg : option Z) (p : process K) (socket ifindex : Z) (ifname : list byte) :
  forallb (well_addressed socket ifindex)
    (calls_of (socket_bind_if_with cfg socket ifindex) p) = true
  /\ forallb (well_addressed socket ifindex)
       (calls_of (socket_SIOCGIFNAME socket ifindex ifname) p) = true.
Proof.
  split.
  - rewrite calls_socket_bind_if_with. destruct cfg as [opt|];
      [|apply well_addressed_name_based_calls].
    destruct (ifindex <? 0); [reflexivity|].
    cbn [forallb]. apply andb_true_iff. split.
    + unfold well_addressed. simpl. rewrite !Z.eqb_refl. reflexivity.
    + destruct (unsupported _ _ _ _); [|reflexivity].
      apply well_addressed_name_based_calls.
  - erewrite calls_of_app
      by (rewrite socket_SIOCGIFNAME_run; apply trace_resolved).
    unfold well_addressed. simpl. rewrite !Z.eqb_refl. reflexivity.
Qed.

(** X2: [socket_bind_if] makes at most two system calls, at most one of
    them a request to resolve a name; it makes at least one when the index
    is not negative, and with a positive index the request comes first.
    With the [SO_BINDTOIF] block compiled in there are at most three. *)
Theorem bind_if_call_count {K : Type} `{Kernel K}
  (p : process K) (socket ifindex opt : Z) :
  (length (calls_of (socket_bind_if socket ifindex) p) <= 2)%nat
  /\ (length (List.filter is_ioctl
                (calls_of (socket_bind_if socket ifindex) p)) <= 1)%nat
  /\ (length (calls_of (socket_bind_if_with (Some opt) socket ifindex) p)
      <= 3)%nat
  /\ (0 <= ifindex ->
      (1 <= length (calls_of (socket_bind_if socket ifindex) p))%nat)
  /\ (0 < ifindex ->
      head (calls_of (socket_bind_if socket ifindex) p) =
        Some (resolve_event p socket ifindex)).
Proof.
  assert (Hnb : forall q : process K,
             (length (name_based_calls q socket ifindex) <= 2)%nat
             /\ (length (List.filter is_ioctl
                           (name_based_calls q socket ifindex)) <= 1)%nat).
  { intros q. unfold name_based_calls. destruct (0 <? ifindex).
    - destruct (io_ret _ <? 0); [destruct (neg_int _ =? 0)|]; simpl;
        try (split; lia);
        match goal with
        | |- context [bind_calls ?a ?b ?c] =>
            destruct (length_bind_calls a b c) as [H1 H2]
        end;
        rewrite ?H2; lia.
    - destruct (ifindex =? 0); [|simpl; split; lia].
      destruct (length_bind_calls q socket (zeroed IFNAMSIZ)) as [H1 H2].
      rewrite H2. lia. }
  rewrite !calls_socket_bind_if_with, calls_socket_bind_if.
  split; [apply Hnb|]. split; [apply Hnb|]. split; [|split].
  - destruct (ifindex <? 0); [simpl; lia|].
    destruct (unsupported _ _ _ _); simpl; [|lia].
    destruct (Hnb (index_tried p socket ifindex opt)) as [H1 _]. lia.
  - intros Hi. destruct (Z.eq_dec ifindex 0) as [->|Hne].
    + rewrite name_based_calls_zero. simpl. lia.
    + unfold name_based_calls.
      replace (0 <? ifindex) with true by (symmetry; apply Z.ltb_lt; lia).
      simpl. lia.
  - intros Hi. unfold name_based_calls.
    replace (0 <? ifindex) with true by (symmetry; apply Z.ltb_lt; lia).
    reflexivity.
Qed.

Lemma bind_if_call_count_witness :
  0 <= 0 /\ 0 < 1
  /\ length (calls_of (socket_bind_if 3 0) (boot k0)) = 1%nat
  /\ length (calls_of (socket_bind_if 3 1) (boot k0)) = 2%nat
  /\ head (calls_of (socket_bind_if 3 1) (boot k0)) =
       Some (resolve_event (boot k0) 3 1).
Proof.
  split; [lia|]. split; [lia|].
  destruct (bind_if_call_count (boot k0) 3 1 62) as (_ & _ & _ & _ & Hhead).
  split; [reflexivity|]. split; [reflexivity|].
  apply Hhead. lia.
Defined.

Section Undefined.
Context {K : Type} `{Kernel K}.
Implicit Types (p : process K) (socket ifindex : Z) (ifname : list byte).

Lemma is_undefined_bind_result p socket ifname :
  is_undefined (fst (bind_result p socket ifname)) =
  negb (zero_terminated ifname).
Proof.
  unfold bind_result. destruct (strlen ifname) as [n|] eqn:En; simpl.
  - symmetry. apply negb_false_iff, strlen_terminated. rewrite En. eauto.
  - symmetry. apply negb_true_iff, strlen_None, En.
Qed.

End Undefined.

(** X3: on a run with an index that is not negative in which every failed
    call reports a positive [int] error code, so that [-errno] is defined,
    [socket_bind_if] runs into undefined behaviour in one case and in no
    other: the index is positive, the kernel request succeeds, and the
    reply has no zero byte among its [IFNAMSIZ] bytes, so that [strlen]
    leaves the array.  In every other case it returns. *)
Theorem bind_if_undefined_iff {K : Type} `{Kernel K}
  (p : process K) (socket ifindex : Z) :
  0 <= ifindex ->
  forallb posix_errno (calls_of (socket_bind_if socket ifindex) p) = true ->
  is_undefined (fst (socket_bind_if socket ifindex p)) =
    (0 <? ifindex)
    && negb (io_ret (resolve_reply p socket ifindex) <? 0)
    && negb (zero_terminated (take IFNAMSIZ (reply_name p socket ifindex)))
  /\ (is_undefined (fst (socket_bind_if socket ifindex p)) = false ->
      exists r : Z, fst (socket_bind_if socket ifindex p) = Returned r).
Proof.
  intros Hi _.
  assert (Hz : zero_terminated (zeroed IFNAMSIZ) = true) by reflexivity.
  assert (Hret : forall (q : process K) (buf : list byte),
             is_undefined (fst (bind_result q socket buf)) = false ->
             exists r : Z, fst (bind_result q socket buf) = Returned r).
  { intros q buf. unfold bind_result. destruct (strlen buf); simpl;
      [eauto | discriminate]. }
  destruct (Z.eq_dec ifindex 0) as [->|Hne].
  - rewrite socket_bind_if_zero, is_undefined_bind_result, Hz.
    split; [reflexivity|].
    intros _. apply Hret. rewrite is_undefined_bind_result, Hz. reflexivity.
  - rewrite socket_bind_if_pos by lia.
    replace (0 <? ifindex) with true by (symmetry; apply Z.ltb_lt; lia).
    destruct (io_ret _ <? 0); [destruct (neg_int _ =? 0)|]; cbn [fst].
    + rewrite is_undefined_bind_result, Hz.
      split; [reflexivity|].
      intros _. apply Hret. rewrite is_undefined_bind_result, Hz. reflexivity.
    + split; [reflexivity | eauto].
    + rewrite is_undefined_bind_result.
      split; [reflexivity|].
      intros Hu. apply Hret. rewrite is_undefined_bind_result. exact Hu.
Qed.

Lemma bind_if_undefined_iff_witness :
  0 <= 1
  /\ forallb posix_errno (calls_of (socket_bind_if 3 1) (boot k_long)) = true
  /\ forallb posix_errno (calls_of (socket_bind_if 3 1) (boot k0)) = true
  /\ is_undefined (fst (socket_bind_if 3 1 (boot k_long))) = true
  /\ exists r : Z, fst (socket_bind_if 3 1 (boot k0)) = Returned r.
Proof.
  assert (H1 : 0 <= 1) by lia.
  assert (H2 : forallb posix_errno
                 (calls_of (socket_bind_if 3 1) (boot k_long)) = true)
    by by_computation.
  assert (H3 : forallb posix_errno
                 (calls_of (socket_bind_if 3 1) (boot k0)) = true)
    by by_computation.
  split; [exact H1|]. split; [exact H2|]. split; [exact H3|].
  destruct (bind_if_undefined_iff (boot k_long) 3 1 H1 H2) as [Hu _].
  destruct (bind_if_undefined_iff (boot k0) 3 1 H1 H3) as [Hd Hr].
  split.
  - rewrite Hu. reflexivity.
  - apply Hr. rewrite Hd. reflexivity.
Defined.

(** X4: with a positive index, a successful request and a zero-terminated
    reply, the bytes [socket_bind_if] hands to [SO_BINDTODEVICE] are the
    name the kernel gave: the first [optlen] bytes of the array are the
    bytes of the reply before its first zero byte, no zero byte among them,
    and [optlen] is their number.  The function returns 0 or the negated
    error code of that call. *)
Theorem bind_if_hands_over_resolved_name {K : Type} `{Kernel K}
  (p : process K) (socket ifindex : Z) :
  0 < ifindex ->
  0 <= io_ret (resolve_reply p socket ifindex) ->
  zero_terminated (take IFNAMSIZ (reply_name p socket ifindex)) = true ->
  exists (buf : list byte) (n : nat),
    calls_of (socket_bind_if socket ifindex) p =
      [resolve_event p socket ifindex;
       bind_event (resolved p socket ifindex) socket buf n]
    /\ take n buf = cstring (reply_name p socket ifindex)
    /\ zero_terminated (take n buf) = false
    /\ n = length (cstring (reply_name p socket ifindex))
    /\ fst (socket_bind_if socket ifindex p) =
         Returned
           (if so_ret (bind_reply (resolved p socket ifindex) socket buf n) <? 0
            then neg_int
                   (so_errno (bind_reply (resolved p socket ifindex) socket buf n))
            else 0).
Proof.
  intros Hi Hret Hterm.
  destruct (proj1 (strlen_terminated _) Hterm) as [n Hn].
  exists (take IFNAMSIZ (reply_name p socket ifindex)), n.
  pose proof (strlen_take_cstring _ _ Hn) as Htake.
  rewrite (cstring_take _ _ Hterm) in Htake.
  split; [|split; [exact Htake|split; [|split]]].
  - rewrite calls_socket_bind_if. unfold name_based_calls, bind_calls.
    replace (0 <? ifindex) with true by (symmetry; apply Z.ltb_lt; lia).
    replace (io_ret _ <? 0) with false by (symmetry; apply Z.ltb_ge; lia).
    rewrite Hn. reflexivity.
  - rewrite Htake. apply cstring_no_zero.
  - rewrite <- (cstring_take _ _ Hterm). symmetry.
    apply strlen_cstring, Hn.
  - rewrite socket_bind_if_pos by exact Hi.
    replace (io_ret _ <? 0) with false by (symmetry; apply Z.ltb_ge; lia).
    unfold bind_result. rewrite Hn. reflexivity.
Qed.

Lemma bind_if_hands_over_resolved_name_witness :
  0 < 2
  /\ 0 <= io_ret (resolve_reply (boot k0) 3 2)
  /\ zero_terminated (take IFNAMSIZ (reply_name (boot k0) 3 2)) = true
  /\ exists (buf : list byte) (n : nat),
       calls_of (socket_bind_if 3 2) (boot k0) =
         [resolve_event (boot k0) 3 2;
          bind_event (resolved (boot k0) 3 2) 3 buf n]
       /\ take n buf = name_eth0.
Proof.
  assert (H1 : 0 < 2) by lia.
  assert (H2 : 0 <= io_ret (resolve_reply (boot k0) 3 2)) by by_computation.
  assert (H3 : zero_terminated (take IFNAMSIZ (reply_name (boot k0) 3 2))
               = true) by by_computation.
  repeat (split; [assumption|]).
  destruct (bind_if_hands_over_resolved_name (boot k0) 3 2 H1 H2 H3)
    as (buf & n & Hcalls & Htake & _).
  exists buf, n. split; [exact Hcalls|]. rewrite Htake. reflexivity.
Defined.

Section SameKernel.
Context {K : Type} `{Kernel K}.
Implicit Types (p : process K) (socket ifindex : Z) (ifname : list byte).

Lemma bind_result_same_kernel p p' socket ifname :
  kern p = kern p' ->
  fst (bind_result p socket ifname) = fst (bind_result p' socket ifname)
  /\ kern (snd (bind_result p socket ifname)) =
     kern (snd (bind_result p' socket ifname))
  /\ bind_calls p socket ifname = bind_calls p' socket ifname.
Proof.
  intros Hk.
  unfold bind_result, bind_calls, bind_event, bound, bind_reply, setsockopt.
  rewrite Hk. destruct (strlen ifname); simpl; auto.
Qed.

Lemma resolved_same_kernel p p' socket ifindex :
  kern p = kern p' ->
  resolve_reply p socket ifindex = resolve_reply p' socket ifindex
  /\ kern (resolved p socket ifindex) = kern (resolved p' socket ifindex).
Proof.
  intros Hk. unfold resolved, resolve_reply, ioctl. rewrite Hk. simpl. auto.
Qed.

Lemma socket_bind_if_same_kernel p p' socket ifindex :
  kern p = kern p' ->
  fst (socket_bind_if socket ifindex p) = fst (socket_bind_if socket ifindex p')
  /\ kern (snd (socket_bind_if socket ifindex p)) =
     kern (snd (socket_bind_if socket ifindex p'))
  /\ name_based_calls p socket ifindex = name_based_calls p' socket ifindex.
Proof.
  intros Hk.
  destruct (Z.lt_trichotomy ifindex 0) as [Hneg|[->|Hpos]].
  - unfold socket_bind_if. rewrite !socket_bind_if_neg by exact Hneg.
    rewrite !name_based_calls_neg by exact Hneg. auto.
  - rewrite !socket_bind_if_zero.
    destruct (bind_result_same_kernel p p' socket (zeroed IFNAMSIZ) Hk)
      as (Hf & Hs & Hc).
    unfold name_based_calls. simpl. auto.
  - rewrite !socket_bind_if_pos by exact Hpos. unfold name_based_calls, reply_name.
    replace (0 <? ifindex) with true by (symmetry; apply Z.ltb_lt; lia).
    destruct (resolved_same_kernel p p' socket ifindex Hk) as [Hrep Hk1].
    unfold resolve_event. rewrite Hrep.
    destruct (io_ret _ <? 0); [destruct (neg_int _ =? 0)|].
    + destruct (bind_result_same_kernel _ _ socket (zeroed IFNAMSIZ) Hk1)
        as (Hf & Hs & Hc).
      rewrite Hc. auto.
    + simpl. auto.
    + destruct (bind_result_same_kernel _ _ socket
                  (take IFNAMSIZ
                     (ifr_name (io_arg (resolve_reply p' socket ifindex)))) Hk1)
        as (Hf & Hs & Hc).
      rewrite Hc. auto.
Qed.

End SameKernel.

(** X5: what the two functions return, the calls they make and the kernel
    state they leave depend on the kernel state they start in only: not on
    the value [errno] has at entry, and not on earlier calls.  An error
    code left over from before is never reported. *)
Theorem results_depend_on_kernel_only {K : Type} `{Kernel K}
  (cfg : option Z) (p p' : process K) (socket ifindex : Z)
  (ifname : list byte) :
  kern p = kern p' ->
  fst (socket_bind_if_with cfg socket ifindex p) =
    fst (socket_bind_if_with cfg socket ifindex p')
  /\ kern (snd (socket_bind_if_with cfg socket ifindex p)) =
     kern (snd (socket_bind_if_with cfg socket ifindex p'))
  /\ calls_of (socket_bind_if_with cfg socket ifindex) p =
     calls_of (socket_bind_if_with cfg socket ifindex) p'
  /\ fst (socket_SIOCGIFNAME socket ifindex ifname p) =
     fst (socket_SIOCGIFNAME socket ifindex ifname p')
  /\ kern (snd (socket_SIOCGIFNAME socket ifindex ifname p)) =
     kern (snd (socket_SIOCGIFNAME socket ifindex ifname p')).
Proof.
  intros Hk.
  assert (Hres : fst (socket_SIOCGIFNAME socket ifindex ifname p) =
                 fst (socket_SIOCGIFNAME socket ifindex ifname p')
                 /\ kern (snd (socket_SIOCGIFNAME socket ifindex ifname p)) =
                    kern (snd (socket_SIOCGIFNAME socket ifindex ifname p'))).
  { rewrite !socket_SIOCGIFNAME_run. unfold reply_name.
    destruct (resolved_same_kernel p p' socket ifindex Hk) as [Hrep Hk1].
    rewrite Hrep. auto. }
  destruct Hres as [Hres1 Hres2].
  rewrite !calls_socket_bind_if_with.
  destruct cfg as [opt|].
  - destruct (Z.lt_ge_cases ifindex 0) as [Hneg|Hpos].
    { rewrite !socket_bind_if_neg by exact Hneg.
      replace (ifindex <? 0) with true by (symmetry; apply Z.ltb_lt; lia).
      auto. }
    replace (ifindex <? 0) with false by (symmetry; apply Z.ltb_ge; lia).
    rewrite !socket_bind_if_with_Some by exact Hpos.
    assert (Hrep : index_reply p socket ifindex opt =
                   index_reply p' socket ifindex opt)
      by (unfold index_reply; rewrite Hk; reflexivity).
    assert (Hk1 : kern (index_tried p socket ifindex opt) =
                  kern (index_tried p' socket ifindex opt))
      by (unfold index_tried, setsockopt; rewrite Hk; reflexivity).
    unfold unsupported, index_event. rewrite Hrep.
    destruct (socket_bind_if_same_kernel _ _ socket ifindex Hk1)
      as (Hf & Hs & Hc).
    destruct (0 <=? so_ret _) eqn:Er.
    + apply Z.leb_le in Er.
      replace (so_ret _ <? 0) with false by (symmetry; apply Z.ltb_ge; lia).
      simpl. auto.
    + apply Z.leb_gt in Er.
      replace (so_ret _ <? 0) with true by (symmetry; apply Z.ltb_lt; lia).
      simpl. destruct (so_errno _ =? ENOPROTOOPT); [rewrite Hc|]; auto.
  - fold (socket_bind_if socket ifindex).
    destruct (socket_bind_if_same_kernel p p' socket ifindex Hk)
      as (Hf & Hs & Hc).
    auto.
Qed.

Lemma results_depend_on_kernel_only_witness :
  kern {| kern := k0; errno := ENOPROTOOPT; trace := [] |} = kern (boot k0)
  /\ fst (socket_bind_if 3 1 {| kern := k0; errno := ENOPROTOOPT; trace := [] |})
     = Returned 0.
Proof.
  split; [reflexivity|].
  destruct (results_depend_on_kernel_only None
              {| kern := k0; errno := ENOPROTOOPT; trace := [] |} (boot k0)
              3 1 [] eq_refl) as (Hf & _).
  change (socket_bind_if 3 1) with (socket_bind_if_with None 3 1).
  rewrite Hf. reflexivity.
Defined.

(** ** Further properties on the reference kernel *)

Lemma bytes_eqb_eq (a b : list byte) : bytes_eqb a b = true -> a = b.
Proof.
  revert b. induction a as [|x a IH]; intros [|y b]; simpl;
    try discriminate; [reflexivity|].
  intros Hab. apply andb_true_iff in Hab as [Hxy Hab].
  apply Byte.byte_dec_bl in Hxy. f_equal; [exact Hxy | apply IH, Hab].
Qed.

Lemma name_of_In (i : Z) (n : list byte) (t : list (Z * list byte)) :
  name_of i t = Some n -> In n (map snd t).
Proof.
  induction t as [|[j m] t IH]; simpl; [discriminate|].
  destruct (j =? i); [intros [= ->]; left; reflexivity|].
  intros Hn. right. apply IH, Hn.
Qed.

(** Index to name and back, in a table without shared names. *)
Lemma index_of_name_of_unique (i : Z) (n : list byte)
  (t : list (Z * list byte)) :
  NoDup (map snd t) -> name_of i t = Some n -> index_of n t = Some i.
Proof.
  induction t as [|[j m] t IH]; simpl; [discriminate|].
  intros Hnd. apply NoDup_cons in Hnd as [Hnotin Hnd].
  destruct (Z.eqb_spec j i) as [->|Hji].
  - intros [= ->]. rewrite bytes_eqb_refl. reflexivity.
  - intros Hn. destruct (bytes_eqb m n) eqn:Emn; [|apply IH; assumption].
    apply bytes_eqb_eq in Emn. subst m. exfalso. apply Hnotin.
    apply list_elem_of_In. eapply name_of_In, Hn.
Qed.

Lemma bind_result_fails (q : process state) (fd b : Z) (buf : list byte) :
  socks (kern q) !! fd = Some b ->
  name_target (kern q) buf = None ->
  fst (bind_result q fd buf) = Undefined
  \/ fst (bind_result q fd buf) = Returned (- ENODEV).
Proof.
  intros Hfd. unfold name_target, bind_result.
  destruct (strlen buf) as [len|]; [|left; reflexivity].
  unfold bind_reply. simpl. unfold do_setsockopt. rewrite Hfd.
  change (negb (SOL_SOCKET =? SOL_SOCKET)) with false.
  change (SO_BINDTODEVICE =? SO_BINDTODEVICE) with true. cbv iota.
  replace (Z.of_nat len <? 0) with false by (symmetry; apply Z.ltb_ge; lia).
  rewrite Nat2Z.id.
  destruct (cstring _) as [|c dev]; [discriminate|].
  destruct (index_of _ _); [discriminate|]. intros _. right. reflexivity.
Qed.

Lemma bind_result_closed_fails (q : process state) (fd : Z) (buf : list byte) :
  socks (kern q) !! fd = None ->
  zero_terminated buf = true ->
  fst (bind_result q fd buf) = Returned (- EBADF).
Proof.
  intros Hfd Hz. unfold bind_result.
  destruct (proj1 (strlen_terminated buf) Hz) as [len Hlen]. rewrite Hlen.
  unfold bind_reply. simpl. unfold do_setsockopt. rewrite Hfd. reflexivity.
Qed.

Lemma socket_bind_if_closed (q : process state) (fd i : Z) :
  0 <= i -> socks (kern q) !! fd = None ->
  fst (socket_bind_if fd i q) = Returned (- EBADF).
Proof.
  intros Hi Hfd. destruct (Z.eq_dec i 0) as [->|Hne].
  - rewrite socket_bind_if_zero. apply bind_result_closed_fails;
      [exact Hfd | reflexivity].
  - rewrite socket_bind_if_pos by lia.
    destruct (resolve_reply_closed q fd i Hfd) as [Hret Herr].
    rewrite Hret, Herr. reflexivity.
Qed.

Lemma socket_bind_if_missing (q : process state) (fd i b : Z) :
  0 < i -> socks (kern q) !! fd = Some b ->
  name_of i (ifaces (kern q)) = None ->
  fst (socket_bind_if fd i q) = Returned (- ENODEV).
Proof.
  intros Hi Hfd Hn. rewrite socket_bind_if_pos by exact Hi.
  pose proof (resolve_reply_open q fd i b Hfd) as Hrep.
  rewrite Hn in Hrep. destruct Hrep as [Hret Herr].
  rewrite Hret, Herr. reflexivity.
Qed.

(** The call returns 0 exactly when it has a target. *)
Lemma socket_bind_if_ok_iff (q : process state) (fd i : Z) :
  0 <= i ->
  fst (socket_bind_if fd i q) = Returned 0 <->
  is_Some (bind_target (kern q) fd i).
Proof.
  intros Hi. split.
  - intros Hok. destruct (bind_target (kern q) fd i) as [j|] eqn:Ht; [eauto|].
    exfalso. unfold bind_target in Ht.
    destruct (socks (kern q) !! fd) as [b|] eqn:Hfd.
    + destruct (Z.eqb_spec i 0) as [->|Hne].
      * rewrite socket_bind_if_zero in Hok.
        destruct (bind_result_fails q fd b _ Hfd Ht) as [Hu|Hu];
          rewrite Hu in Hok; discriminate.
      * destruct (name_of i (ifaces (kern q))) as [n|] eqn:Hn.
        -- rewrite socket_bind_if_pos in Hok by lia.
           pose proof (resolve_reply_open q fd i b Hfd) as Hrep.
           rewrite Hn in Hrep. destruct Hrep as [Hret Hname].
           rewrite Hret, Hname, take_in_ifr_name in Hok.
           change (0 <? 0) with false in Hok. cbv iota in Hok.
           assert (Hfd1 : socks (kern (resolved q fd i)) !! fd = Some b)
             by (rewrite kern_resolved; exact Hfd).
           assert (Ht1 : name_target (kern (resolved q fd i)) (in_ifr_name n)
                         = None) by (rewrite kern_resolved; exact Ht).
           destruct (bind_result_fails _ fd b _ Hfd1 Ht1) as [Hu|Hu];
             rewrite Hu in Hok; discriminate.
        -- rewrite (socket_bind_if_missing q fd i b) in Hok
             by (try lia; assumption).
           discriminate.
    + rewrite (socket_bind_if_closed q fd i Hi Hfd) in Hok. discriminate.
  - intros [j Hj]. pose proof (kern_socket_bind_if q fd i Hi) as Hk.
    rewrite Hj in Hk. exact (proj1 Hk).
Qed.

(** X6: on the reference kernel, for an open socket and the index of an
    interface whose name is within the kernel's rules and shared with no
    other interface, [socket_bind_if] returns 0 and the socket is bound to
    the interface with the very index asked for: the way over the name
    leads back to the index. *)
Theorem bind_if_binds_to_index (q : process state) (fd b i : Z)
  (n : list byte) :
  socks (kern q) !! fd = Some b ->
  0 < i ->
  name_of i (ifaces (kern q)) = Some n ->
  valid_name n = true ->
  unique_names (kern q) ->
  fst (socket_bind_if fd i q) = Returned 0
  /\ kern (snd (socket_bind_if fd i q)) = set_bound (kern q) fd i
  /\ bound_dev (kern (snd (socket_bind_if fd i q))) fd = Some i.
Proof.
  intros Hfd Hi Hn Hv Hu.
  destruct (bind_target_valid _ _ _ _ _ Hfd Hi Hn Hv) as (j & Hj & Ht).
  rewrite (index_of_name_of_unique _ _ _ Hu Hn) in Hj.
  injection Hj as <-.
  pose proof (kern_socket_bind_if q fd i (Z.lt_le_incl _ _ Hi)) as Hk.
  rewrite Ht in Hk. destruct Hk as [Hret Hk].
  split; [exact Hret|]. split; [exact Hk|].
  rewrite Hk. unfold bound_dev, set_bound. simpl. apply lookup_insert_eq.
Qed.

Lemma bind_if_binds_to_index_witness :
  socks (kern (boot k0)) !! 3 = Some 0
  /\ 0 < 2
  /\ name_of 2 (ifaces (kern (boot k0))) = Some name_eth0
  /\ valid_name name_eth0 = true
  /\ unique_names (kern (boot k0))
  /\ bound_dev (kern (snd (socket_bind_if 3 2 (boot k0)))) 3 = Some 2.
Proof.
  assert (H1 : socks (kern (boot k0)) !! 3 = Some 0) by by_computation.
  assert (H2 : 0 < 2) by lia.
  assert (H3 : name_of 2 (ifaces (kern (boot k0))) = Some name_eth0)
    by by_computation.
  assert (H4 : valid_name name_eth0 = true) by by_computation.
  assert (H5 : unique_names (kern (boot k0))).
  { unfold unique_names. simpl.
    apply NoDup_cons. split; [|apply NoDup_singleton].
    intros Hin. apply list_elem_of_singleton in Hin. discriminate. }
  repeat (split; [assumption|]).
  exact (proj2 (proj2 (bind_if_binds_to_index _ _ _ _ _ H1 H2 H3 H4 H5))).
Defined.

(** Two interfaces under one name: the call for the second binds the
    socket to the first. *)
Example bind_shared_name_binds_first :
  bound_dev
    (kern (snd (socket_bind_if 3 2
                  (boot {| ifaces := [(1, name_eth0); (2, name_eth0)];
                           socks := {[ 3 := 0 ]};
                           bindtoif := None |})))) 3 = Some 1.
Proof. reflexivity. Qed.

(** X7: on the reference kernel a call that succeeds settles the binding
    whatever an earlier call did: if [socket_bind_if] with the index [i']
    returns 0 from a state, it also returns 0 after a call with any index
    [i] from that state, and the kernel state is the one the call with
    [i'] alone leaves. *)
Theorem bind_if_last_wins (q : process state) (fd i i' : Z) :
  0 <= i -> 0 <= i' ->
  fst (socket_bind_if fd i' q) = Returned 0 ->
  fst (socket_bind_if fd i' (snd (socket_bind_if fd i q))) = Returned 0
  /\ kern (snd (socket_bind_if fd i' (snd (socket_bind_if fd i q)))) =
     kern (snd (socket_bind_if fd i' q)).
Proof.
  intros Hi Hi' Hok.
  destruct (proj1 (socket_bind_if_ok_iff q fd i' Hi') Hok) as [j' Ht'].
  destruct (bind_target_open _ _ _ _ Ht') as [b Hfd].
  pose proof (kern_socket_bind_if q fd i' Hi') as Hk'.
  rewrite Ht' in Hk'. destruct Hk' as [_ Hk'].
  pose proof (kern_socket_bind_if q fd i Hi) as Hk.
  pose proof (kern_socket_bind_if (snd (socket_bind_if fd i q)) fd i' Hi')
    as Hk2.
  destruct (bind_target (kern q) fd i) as [j|].
  - destruct Hk as [_ Hk]. rewrite Hk in Hk2.
    rewrite (bind_target_set_bound _ _ _ _ _ Hfd), Ht' in Hk2.
    destruct Hk2 as [Hret2 Hk2]. split; [exact Hret2|].
    rewrite Hk2, Hk', set_bound_twice. reflexivity.
  - rewrite Hk, Ht' in Hk2. destruct Hk2 as [Hret2 Hk2].
    split; [exact Hret2|]. rewrite Hk2, Hk'. reflexivity.
Qed.

Lemma bind_if_last_wins_witness :
  0 <= 1 /\ 0 <= 2
  /\ fst (socket_bind_if 3 2 (boot k0)) = Returned 0
  /\ bound_dev
       (kern (snd (socket_bind_if 3 2 (snd (socket_bind_if 3 1 (boot k0)))))) 3
     = Some 2.
Proof.
  assert (H1 : 0 <= 1) by lia.
  assert (H2 : 0 <= 2) by lia.
  assert (H3 : fst (socket_bind_if 3 2 (boot k0)) = Returned 0)
    by by_computation.
  repeat (split; [assumption|]).
  destruct (bind_if_last_wins (boot k0) 3 1 2 H1 H2 H3) as [_ Hk].
  rewrite Hk. reflexivity.
Defined.

(** X8: on the reference kernel a call of [socket_bind_if] that does not
    return 0 leaves the kernel state as it was, a binding made earlier
    included.  On an open socket with a positive index that no interface
    has it returns [-ENODEV] and the socket keeps its binding. *)
Theorem bind_if_failure_keeps_binding (q : process state) (fd i : Z) :
  0 <= i ->
  (fst (socket_bind_if fd i q) <> Returned 0 ->
   kern (snd (socket_bind_if fd i q)) = kern q)
  /\ (forall b : Z,
        socks (kern q) !! fd = Some b ->
        0 < i ->
        name_of i (ifaces (kern q)) = None ->
        fst (socket_bind_if fd i q) = Returned (- ENODEV)
        /\ bound_dev (kern (snd (socket_bind_if fd i q))) fd = Some b).
Proof.
  intros Hi.
  assert (Hkeep : fst (socket_bind_if fd i q) <> Returned 0 ->
                  kern (snd (socket_bind_if fd i q)) = kern q).
  { intros Hne. pose proof (kern_socket_bind_if q fd i Hi) as Hk.
    destruct (bind_target (kern q) fd i); [|exact Hk].
    destruct Hk as [Hret _]. contradiction. }
  split; [exact Hkeep|].
  intros b Hfd Hpos Hn.
  pose proof (socket_bind_if_missing q fd i b Hpos Hfd Hn) as Hret.
  split; [exact Hret|].
  rewrite Hkeep by (rewrite Hret; discriminate). exact Hfd.
Qed.

Lemma bind_if_failure_keeps_binding_witness :
  0 <= 7
  /\ socks (kern (snd (socket_bind_if 3 2 (boot k0)))) !! 3 = Some 2
  /\ 0 < 7
  /\ name_of 7 (ifaces (kern (snd (socket_bind_if 3 2 (boot k0))))) = None
  /\ fst (socket_bind_if 3 7 (snd (socket_bind_if 3 2 (boot k0)))) =
       Returned (- ENODEV)
  /\ bound_dev
       (kern (snd (socket_bind_if 3 7 (snd (socket_bind_if 3 2 (boot k0)))))) 3
     = Some 2.
Proof.
  assert (H1 : 0 <= 7) by lia.
  assert (H2 : socks (kern (snd (socket_bind_if 3 2 (boot k0)))) !! 3 = Some 2)
    by by_computation.
  assert (H3 : 0 < 7) by lia.
  assert (H4 : name_of 7 (ifaces (kern (snd (socket_bind_if 3 2 (boot k0)))))
               = None) by by_computation.
  repeat (split; [assumption|]).
  destruct (bind_if_failure_keeps_binding
              (snd (socket_bind_if 3 2 (boot k0))) 3 7 H1) as (_ & Hmiss).
  exact (Hmiss 2 H2 H3 H4).
Defined.

(** X9: on the reference kernel [socket_bind_if] changes nothing but the
    binding of the socket it is given: the interface table and the
    bindings of all other sockets are as before, and the socket is open
    after the call exactly when it was before.  [socket_SIOCGIFNAME]
    leaves the whole kernel state as it was. *)
Theorem bind_if_touches_one_socket (q : process state) (fd fd' i : Z)
  (ifname : list byte) :
  ifaces (kern (snd (socket_bind_if fd i q))) = ifaces (kern q)
  /\ (fd' <> fd ->
      socks (kern (snd (socket_bind_if fd i q))) !! fd' =
      socks (kern q) !! fd')
  /\ (is_Some (socks (kern (snd (socket_bind_if fd i q))) !! fd) <->
      is_Some (socks (kern q) !! fd))
  /\ kern (snd (socket_SIOCGIFNAME fd i ifname q)) = kern q.
Proof.
  assert (Hres : kern (snd (socket_SIOCGIFNAME fd i ifname q)) = kern q)
    by (rewrite socket_SIOCGIFNAME_run; apply kern_resolved).
  destruct (Z.lt_ge_cases i 0) as [Hneg|Hi].
  { unfold socket_bind_if. rewrite socket_bind_if_neg by exact Hneg.
    simpl. tauto. }
  pose proof (kern_socket_bind_if q fd i Hi) as Hk.
  destruct (bind_target (kern q) fd i) as [j|] eqn:Ht.
  - destruct Hk as [_ Hk]. rewrite Hk.
    destruct (bind_target_open _ _ _ _ Ht) as [b Hfd].
    unfold set_bound. simpl.
    split; [reflexivity|]. split; [|split; [|exact Hres]].
    + intros Hne. apply lookup_insert_ne. congruence.
    + rewrite lookup_insert_eq, Hfd. split; eauto.
  - rewrite Hk. tauto.
Qed.

Lemma bind_if_touches_one_socket_witness :
  4 <> 3
  /\ socks (kern (snd (socket_bind_if 3 1
                         (boot (set_bound (socket_new k0 4) 4 2))))) !! 4
     = Some 2.
Proof.
  split; [lia|].
  destruct (bind_if_touches_one_socket
              (boot (set_bound (socket_new k0 4) 4 2)) 3 4 1 [])
    as (_ & Hother & _).
  rewrite Hother by lia. reflexivity.
Defined.
